(** * Mask R-CNN ROS node: frame mailbox, scheduler tick and result builder

    A shallow embedding of [nodes/mask_rcnn_node.py]: the subscriber
    callback [_image_callback], one iteration of the loop of [run], and
    [_build_result_msg].  Python exceptions are an explicit outcome type,
    the node object is a record that the methods transform, and the two
    publishers are logs of the messages handed to them. *)

From Stdlib Require Import String ZArith Bool List Lia.
Import ListNotations.
Local Open Scope Z_scope.

(** ** Python values: exceptions and sequence indexing *)

Module Py.

Inductive exn : Set :=
| IndexError
| RuntimeError.

(** The result of evaluating a Python expression or statement block. *)
Inductive outcome (A : Type) : Type :=
| Return (a : A)
| Raise (e : exn).
Arguments Return {A} a.
Arguments Raise {A} e.

Definition bind {A B : Type} (m : outcome A) (k : A -> outcome B) : outcome B :=
  match m with
  | Return a => k a
  | Raise e => Raise e
  end.

(** [seq[i]] for a list (and for axis 0 of an array): a negative index
    counts from the end, and an index outside [-len, len) raises
    [IndexError]. *)
Definition getitem {A : Type} (l : list A) (i : Z) : outcome A :=
  let n := Z.of_nat (length l) in
  let j := if i <? 0 then i + n else i in
  if (j <? 0) || (n <=? j) then Raise IndexError
  else match nth_error l (Z.to_nat j) with
       | Some a => Return a
       | None => Raise IndexError
       end.

(** [for i, x in enumerate(xs): s = body(i, x, s)], an exception in the
    body leaving the loop. *)
Fixpoint for_enumerate {A St : Type} (body : nat -> A -> St -> outcome St)
         (i : nat) (xs : list A) (s : St) : outcome St :=
  match xs with
  | [] => Return s
  | x :: rest => bind (body i x s) (for_enumerate body (S i) rest)
  end.

End Py.

Notation "x <- m ;; k" := (Py.bind m (fun x => k))
  (at level 61, m at next level, right associativity).

(** ** numpy values: fixed-width integers and the arrays of a detection *)

Module Np.

(** The value a signed [bits]-wide integer holds after an operation
    whose exact result is [z]. *)
Definition wrap (bits z : Z) : Z :=
  (z + 2 ^ (bits - 1)) mod 2 ^ bits - 2 ^ (bits - 1).

Definition in_range (bits z : Z) : Prop :=
  - 2 ^ (bits - 1) <= z < 2 ^ (bits - 1).

(** [a - b] on two scalars of one signed dtype. *)
Definition sub (bits a b : Z) : Z := wrap bits (a - b).

(** [np.int64(z)]. *)
Definition int64 (z : Z) : Z := wrap 64 z.

(** A boolean array of shape [(shape0, shape1, shape2)], read through
    its accessor at indices within the shape. *)
Record bool3 : Type := {
  shape0 : nat;
  shape1 : nat;
  shape2 : nat;
  at3 : nat -> nat -> nat -> bool
}.

Record bool2 : Type := {
  brows : nat;
  bcols : nat;
  bat : nat -> nat -> bool
}.

Record int2 : Type := {
  rows : nat;
  cols : nat;
  at2 : nat -> nat -> Z
}.

(** [a[:, :, i]]. *)
Definition slice_last (a : bool3) (i : nat) : Py.outcome bool2 :=
  if (i <? shape2 a)%nat
  then Py.Return {| brows := shape0 a; bcols := shape1 a;
                    bat := fun r c => at3 a r c i |}
  else Py.Raise Py.IndexError.

(** [b == True]. *)
Definition eq_True (b : bool2) : bool2 :=
  {| brows := brows b; bcols := bcols b;
     bat := fun r c => Bool.eqb (bat b r c) true |}.

(** [np.zeros((h, w), np.int64)]. *)
Definition zeros (h w : nat) : int2 :=
  {| rows := h; cols := w; at2 := fun _ _ => 0 |}.

(** [a[b] = v] for a boolean index [b] of the shape of [a]. *)
Definition assign_where (a : int2) (b : bool2) (v : Z) : int2 :=
  {| rows := rows a; cols := cols a;
     at2 := fun r c => if bat b r c then v else at2 a r c |}.

(** The rows [f r 0 .. f r (w-1)] for [r] from [s], [h] of them. *)
Definition grid {A : Type} (f : nat -> nat -> A) (s h w : nat) : list (list A) :=
  map (fun r => map (fun c => f r c) (seq 0 w)) (seq s h).

(** [a.tolist()]: the list of the rows. *)
Definition tolist (a : int2) : list (list Z) :=
  grid (at2 a) 0 (rows a) (cols a).

Definition btolist (b : bool2) : list (list bool) :=
  grid (bat b) 0 (brows b) (bcols b).

(** [np.reshape(l, (h, w))] on a flat sequence, as the list of rows. *)
Definition reshape {A : Type} (h w : nat) (l : list A) : list (list A) :=
  map (fun r => firstn w (skipn (r * w) l)) (seq 0 h).

End Np.

(** ** Messages and the node *)

Section Node.

(** [std_msgs/Header] and the pixel payload of [sensor_msgs/Image] are
    only passed along; a score is a float that is only copied. *)
Variables Header Pixels Score : Type.

(** The cv2 image made from a message, the rendered visualisation. *)
Variable CvImage : Type.

Record Image : Type := {
  header : Header;
  pixels : Pixels
}.

Record RegionOfInterest : Type := {
  x_offset : Z;
  y_offset : Z;
  height : Z;
  width : Z;
  do_rectify : bool
}.

(** [std_msgs/Int64MultiArray]; its [layout] stays the default one. *)
Record Int64MultiArray : Type := {
  data : list Z
}.

Record Result : Type := {
  result_header : Header;
  boxes : list RegionOfInterest;
  class_ids : list Z;
  class_names : list string;
  scores : list Score;
  masks : list Int64MultiArray
}.

(** One element of the list returned by [model.detect]: the dict with
    keys ['rois'], ['class_ids'], ['scores'] and ['masks']. *)
Record Detections : Type := {
  r_rois : list (Z * Z * Z * Z);
  r_class_ids : list Z;
  r_scores : list Score;
  r_masks : Np.bool3
}.

(** The signed integer width of the dtype of [result['rois']], which
    the model package fixes. *)
Variable roi_bits : Z.

(** The attributes of [MaskRCNNNode] that [run] and the callback use.
    [_msg_lock] is [true] while the [threading.Lock] is locked; each
    publisher is the list of the messages published so far, oldest
    first. *)
Record Node : Type := {
  _visualization : bool;
  _class_names : list string;
  _last_msg : option Image;
  _msg_lock : bool;
  _result_pub : list Result;
  _vis_pub : list Image
}.

Definition set_last_msg (self : Node) (v : option Image) : Node :=
  {| _visualization := _visualization self;
     _class_names := _class_names self;
     _last_msg := v;
     _msg_lock := _msg_lock self;
     _result_pub := _result_pub self;
     _vis_pub := _vis_pub self |}.

Definition set_msg_lock (self : Node) (b : bool) : Node :=
  {| _visualization := _visualization self;
     _class_names := _class_names self;
     _last_msg := _last_msg self;
     _msg_lock := b;
     _result_pub := _result_pub self;
     _vis_pub := _vis_pub self |}.

(** [self._result_pub.publish(m)] and [self._vis_pub.publish(m)]. *)
Definition publish_result (self : Node) (m : Result) : Node :=
  {| _visualization := _visualization self;
     _class_names := _class_names self;
     _last_msg := _last_msg self;
     _msg_lock := _msg_lock self;
     _result_pub := _result_pub self ++ [m];
     _vis_pub := _vis_pub self |}.

Definition publish_vis (self : Node) (m : Image) : Node :=
  {| _visualization := _visualization self;
     _class_names := _class_names self;
     _last_msg := _last_msg self;
     _msg_lock := _msg_lock self;
     _result_pub := _result_pub self;
     _vis_pub := _vis_pub self ++ [m] |}.

(** *** [_build_result_msg] *)

Definition mask_raster (m : Np.bool3) (i : nat) (class_id : Z)
  : Py.outcome (list Z) :=
  let mask_msg := Np.zeros (Np.shape0 m) (Np.shape1 m) in
  sel <- Np.slice_last m i ;;
  let mask_msg := Np.assign_where mask_msg (Np.eq_True sel) (Np.int64 class_id) in
  let mask_msg_list := Np.tolist mask_msg in
  Py.Return (concat mask_msg_list).

(** [result_msg.boxes.append(box)] and the like. *)
Definition append_box (m : Result) (box : RegionOfInterest) : Result :=
  {| result_header := result_header m; boxes := boxes m ++ [box];
     class_ids := class_ids m; class_names := class_names m;
     scores := scores m; masks := masks m |}.

Definition append_class_id (m : Result) (class_id : Z) : Result :=
  {| result_header := result_header m; boxes := boxes m;
     class_ids := class_ids m ++ [class_id]; class_names := class_names m;
     scores := scores m; masks := masks m |}.

Definition append_class_name (m : Result) (class_name : string) : Result :=
  {| result_header := result_header m; boxes := boxes m;
     class_ids := class_ids m; class_names := class_names m ++ [class_name];
     scores := scores m; masks := masks m |}.

Definition append_score (m : Result) (score : Score) : Result :=
  {| result_header := result_header m; boxes := boxes m;
     class_ids := class_ids m; class_names := class_names m;
     scores := scores m ++ [score]; masks := masks m |}.

Definition append_mask (m : Result) (mask : Int64MultiArray) : Result :=
  {| result_header := result_header m; boxes := boxes m;
     class_ids := class_ids m; class_names := class_names m;
     scores := scores m; masks := masks m ++ [mask] |}.

(** The [RegionOfInterest] filled from a row [(y1, x1, y2, x2)] of
    [result['rois']]; [.item()] keeps the value of a scalar. *)
Definition region (roi : Z * Z * Z * Z) : RegionOfInterest :=
  let '(y1, x1, y2, x2) := roi in
  {| x_offset := x1;
     y_offset := y1;
     height := Np.sub roi_bits y2 y1;
     width := Np.sub roi_bits x2 x1;
     do_rectify := false |}.

(** The body of the loop over [enumerate(result['rois'])]. *)
Definition build_body (self : Node) (result : Detections)
           (i : nat) (roi : Z * Z * Z * Z) (result_msg : Result)
  : Py.outcome Result :=
  let box := region roi in
  let result_msg := append_box result_msg box in
  class_id <- Py.getitem (r_class_ids result) (Z.of_nat i) ;;
  let result_msg := append_class_id result_msg class_id in
  class_name <- Py.getitem (_class_names self) class_id ;;
  let result_msg := append_class_name result_msg class_name in
  score <- Py.getitem (r_scores result) (Z.of_nat i) ;;
  let result_msg := append_score result_msg score in
  raster <- mask_raster (r_masks result) i class_id ;;
  Py.Return (append_mask result_msg {| data := raster |}).

Definition _build_result_msg (self : Node) (msg : Image)
           (result : Detections) : Py.outcome Result :=
  let result_msg := {| result_header := header msg;
                       boxes := []; class_ids := []; class_names := [];
                       scores := []; masks := [] |} in
  Py.for_enumerate (build_body self result) 0%nat
                   (r_rois result) result_msg.

(** The loop read per instance: what the four lookups of iteration [i]
    give, and the message with the entries of a run of iterations
    appended.  These restate the loop for the proofs below. *)
Record Instance : Type := {
  i_class_id : Z;
  i_class_name : string;
  i_score : Score;
  i_raster : list Z
}.

Definition instance_at (self : Node) (result : Detections) (i : nat)
  : Py.outcome Instance :=
  class_id <- Py.getitem (r_class_ids result) (Z.of_nat i) ;;
  class_name <- Py.getitem (_class_names self) class_id ;;
  score <- Py.getitem (r_scores result) (Z.of_nat i) ;;
  raster <- mask_raster (r_masks result) i class_id ;;
  Py.Return {| i_class_id := class_id; i_class_name := class_name;
               i_score := score; i_raster := raster |}.

Fixpoint instances (self : Node) (result : Detections) (i : nat)
         (rois : list (Z * Z * Z * Z)) : Py.outcome (list Instance) :=
  match rois with
  | [] => Py.Return []
  | _ :: rest =>
      e <- instance_at self result i ;;
      es <- instances self result (S i) rest ;;
      Py.Return (e :: es)
  end.

Definition extend (m : Result) (rois : list (Z * Z * Z * Z))
           (es : list Instance) : Result :=
  {| result_header := result_header m;
     boxes := boxes m ++ map region rois;
     class_ids := class_ids m ++ map i_class_id es;
     class_names := class_names m ++ map i_class_name es;
     scores := scores m ++ map i_score es;
     masks := masks m ++ map (fun e => {| data := i_raster e |}) es |}.

(** A Detection Set as the data model has it: one class id, score and
    mask per box, and class ids that index the class-name table. *)
Definition well_formed (self : Node) (result : Detections) : Prop :=
  length (r_class_ids result) = length (r_rois result) /\
  length (r_scores result) = length (r_rois result) /\
  Np.shape2 (r_masks result) = length (r_rois result) /\
  Forall (fun class_id => 0 <= class_id < Z.of_nat (length (_class_names self)))
         (r_class_ids result).

(** A box within the image: coordinates that are not negative and that
    the dtype of [result['rois']] holds. *)
Definition box_in_bounds (roi : Z * Z * Z * Z) : Prop :=
  let '(y1, x1, y2, x2) := roi in
  (0 <= y1 /\ Np.in_range roi_bits y1) /\ (0 <= x1 /\ Np.in_range roi_bits x1) /\
  (0 <= y2 /\ Np.in_range roi_bits y2) /\ (0 <= x2 /\ Np.in_range roi_bits x2).

(** The boolean mask read back from a flattened raster of an image of
    [h] rows and [w] columns: a pixel is foreground when it is not 0. *)
Definition raster_to_mask (h w : nat) (raster : list Z) : list (list bool) :=
  Np.reshape h w (map (fun v => negb (v =? 0)) raster).

(** *** Methods: state passing with exceptions

    A method takes the node and leaves it (possibly changed) together
    with its value or the exception it raised. *)

Definition action (A : Type) : Type := Node -> Node * Py.outcome A.

Definition ret {A : Type} (a : A) : action A :=
  fun self => (self, Py.Return a).

Definition bind_action {A B : Type} (m : action A) (k : A -> action B)
  : action B :=
  fun self =>
    match m self with
    | (self', Py.Return a) => k a self'
    | (self', Py.Raise e) => (self', Py.Raise e)
    end.

Definition gets {A : Type} (f : Node -> A) : action A :=
  fun self => (self, Py.Return (f self)).

Definition modify (f : Node -> Node) : action unit :=
  fun self => (f self, Py.Return tt).

Notation "x <~ m ;; k" := (bind_action m (fun x => k))
  (at level 61, m at next level, right associativity).

(** The part of [__init__] that sets the attributes used below, from the
    parameters [~visualization] and [~class_names]. *)
Definition __init__ (visualization : bool) (class_names : list string) : Node :=
  {| _visualization := visualization;
     _class_names := class_names;
     _last_msg := None;
     _msg_lock := false;
     _result_pub := [];
     _vis_pub := [] |}.

(** *** The mailbox: [_msg_lock] and [_last_msg] *)

(** [self._msg_lock.acquire(False)]: never waits; the flag it returns
    says whether the lock was taken. *)
Definition acquire_nowait : action bool :=
  fun self =>
    if _msg_lock self then (self, Py.Return false)
    else (set_msg_lock self true, Py.Return true).

(** [self._msg_lock.release()]; releasing an unlocked lock is an error. *)
Definition release : action unit :=
  fun self =>
    if _msg_lock self then (set_msg_lock self false, Py.Return tt)
    else (self, Py.Raise Py.RuntimeError).

Definition _image_callback (msg : Image) : action unit :=
  acquired <~ acquire_nowait ;;
  if acquired then
    _ <~ modify (fun self => set_last_msg self (Some msg)) ;;
    release
  else ret tt.

(** *** One iteration of the loop of [run] *)

(** What the first [if] of the loop body leaves: the value read from
    [_last_msg], or the [continue] of the [else] branch. *)
Inductive claimed : Type :=
| Got (msg : option Image)
| Skipped.

Definition claim : action claimed :=
  acquired <~ acquire_nowait ;;
  if acquired then
    msg <~ gets _last_msg ;;
    _ <~ modify (fun self => set_last_msg self None) ;;
    _ <~ release ;;
    ret (Got msg)
  else ret Skipped.

(** The collaborators of the loop body: the cv_bridge conversions, the
    model, the renderer behind [_visualize] and [cv2.convertScaleAbs]. *)
Variable imgmsg_to_cv2 : Image -> CvImage.
Variable detect : CvImage -> Detections.
Variable _visualize : Node -> Detections -> CvImage -> CvImage.
Variable convertScaleAbs : CvImage -> CvImage.
Variable cv2_to_imgmsg : CvImage -> Image.

(** The body of [if msg is not None:]. *)
Definition process (msg : Image) : action unit :=
  let np_image := imgmsg_to_cv2 msg in
  let result := detect np_image in
  result_msg <~ (fun self => (self, _build_result_msg self msg result)) ;;
  _ <~ modify (fun self => publish_result self result_msg) ;;
  visualization <~ gets _visualization ;;
  if visualization then
    vis_image <~ gets (fun self => _visualize self result np_image) ;;
    let cv_result := convertScaleAbs vis_image in
    let image_msg := cv2_to_imgmsg cv_result in
    modify (fun self => publish_vis self image_msg)
  else ret tt.

Definition run_iteration : action unit :=
  c <~ claim ;;
  match c with
  | Skipped => ret tt
  | Got None => ret tt
  | Got (Some msg) => process msg
  end.

(** [run]: the loop, [rospy.is_shutdown()] answering from the list of
    its successive results (and [True] once the list is used up). *)
Fixpoint run (is_shutdown : list bool) : action unit :=
  match is_shutdown with
  | false :: polls => _ <~ run_iteration ;; run polls
  | _ => ret tt
  end.

(** *** The two threads, statement by statement

    The subscriber thread runs [_image_callback] for each delivered
    message and the main thread runs the loop of [run]; the scheduler
    interleaves them between statements.  The positions below name the
    statement each thread executes next. *)

Inductive callback_pc : Type :=
| CbIdle                          (* no callback in progress *)
| CbLocked (msg : Image)          (* lock taken; [self._last_msg = msg] next *)
| CbStored                        (* [self._msg_lock.release()] next *)
| CbRaised (e : Py.exn).          (* the callback left by an exception *)

Inductive loop_pc : Type :=
| LTop                            (* [self._msg_lock.acquire(False)] next *)
| LLocked                         (* [msg = self._last_msg] next *)
| LRead (msg : option Image)      (* [self._last_msg = None] next *)
| LCleared (msg : option Image)   (* [self._msg_lock.release()] next *)
| LClaimed (msg : option Image)   (* [if msg is not None: ...] next *)
| LExited (e : Py.exn).           (* [run] left by an exception *)

(** What happened at the mailbox, for the record only. *)
Inductive mailbox_event : Type :=
| Deposited (msg : Image)         (* a callback stored [msg] *)
| Dropped (msg : Image)           (* a callback found the lock taken *)
| Claimed (msg : option Image)    (* the loop read [msg] and cleared the slot *)
| Missed.                         (* the loop found the lock taken *)

(** [history] and [processed] are records kept beside the program, newest
    entry first: the mailbox events, and the frames handed to the body
    of [if msg is not None:]. *)
Record World : Type := {
  node : Node;
  callback : callback_pc;
  loop : loop_pc;
  history : list mailbox_event;
  processed : list Image
}.

Definition boot (visualization : bool) (class_names : list string) : World :=
  {| node := __init__ visualization class_names;
     callback := CbIdle;
     loop := LTop;
     history := [];
     processed := [] |}.

Inductive move : Type :=
| Deliver (msg : Image)           (* the transport hands [msg] to the callback *)
| SubscriberStep                  (* the callback runs its next statement *)
| MainStep.                       (* the loop runs its next statement *)

(** The subscriber thread enters [_image_callback(msg)] and tries the
    lock; a message that arrives while a callback is still running is
    not delivered by this move. *)
Definition deliver (msg : Image) (w : World) : World :=
  match callback w with
  | CbIdle =>
      match acquire_nowait (node w) with
      | (self, Py.Return true) =>
          {| node := self; callback := CbLocked msg; loop := loop w;
             history := history w; processed := processed w |}
      | (self, _) =>
          {| node := self; callback := CbIdle; loop := loop w;
             history := Dropped msg :: history w; processed := processed w |}
      end
  | _ => w
  end.

(** The next statement of the callback: the store, then the release. *)
Definition subscriber_step (w : World) : World :=
  match callback w with
  | CbLocked msg =>
      {| node := set_last_msg (node w) (Some msg); callback := CbStored;
         loop := loop w;
         history := Deposited msg :: history w; processed := processed w |}
  | CbStored =>
      match release (node w) with
      | (self, Py.Return _) =>
          {| node := self; callback := CbIdle; loop := loop w;
             history := history w; processed := processed w |}
      | (self, Py.Raise e) =>
          {| node := self; callback := CbRaised e; loop := loop w;
             history := history w; processed := processed w |}
      end
  | _ => w
  end.

(** The next statement of the loop body: the try of the lock (with
    [rate.sleep(); continue] when it fails), the read, the clearing, the
    release, and last the whole of [if msg is not None: ...] followed by
    [rate.sleep()], which touches neither the lock nor the slot. *)
Definition main_step (w : World) : World :=
  match loop w with
  | LTop =>
      match acquire_nowait (node w) with
      | (self, Py.Return true) =>
          {| node := self; callback := callback w; loop := LLocked;
             history := history w; processed := processed w |}
      | (self, _) =>
          {| node := self; callback := callback w; loop := LTop;
             history := Missed :: history w; processed := processed w |}
      end
  | LLocked =>
      {| node := node w; callback := callback w;
         loop := LRead (_last_msg (node w));
         history := history w; processed := processed w |}
  | LRead msg =>
      {| node := set_last_msg (node w) None; callback := callback w;
         loop := LCleared msg;
         history := Claimed msg :: history w; processed := processed w |}
  | LCleared msg =>
      match release (node w) with
      | (self, Py.Return _) =>
          {| node := self; callback := callback w; loop := LClaimed msg;
             history := history w; processed := processed w |}
      | (self, Py.Raise e) =>
          {| node := self; callback := callback w; loop := LExited e;
             history := history w; processed := processed w |}
      end
  | LClaimed None =>
      {| node := node w; callback := callback w; loop := LTop;
         history := history w; processed := processed w |}
  | LClaimed (Some msg) =>
      match process msg (node w) with
      | (self, Py.Return _) =>
          {| node := self; callback := callback w; loop := LTop;
             history := history w; processed := msg :: processed w |}
      | (self, Py.Raise e) =>
          {| node := self; callback := callback w; loop := LExited e;
             history := history w; processed := msg :: processed w |}
      end
  | LExited _ => w
  end.

Definition step (w : World) (m : move) : World :=
  match m with
  | Deliver msg => deliver msg w
  | SubscriberStep => subscriber_step w
  | MainStep => main_step w
  end.

(** The state reached under a schedule, its moves taken in order. *)
Definition exec (schedule : list move) (w : World) : World :=
  fold_left step schedule w.

(** The frame a claim finds, from the record: the one stored last since
    the slot was last cleared. *)
Fixpoint newest (h : list mailbox_event) : option Image :=
  match h with
  | [] => None
  | Deposited msg :: _ => Some msg
  | Claimed _ :: _ => None
  | Dropped _ :: h' => newest h'
  | Missed :: h' => newest h'
  end.

(** Every claim of the record found the frame stored last before it. *)
Fixpoint last_write_wins (h : list mailbox_event) : Prop :=
  match h with
  | [] => True
  | Claimed msg :: h' => msg = newest h' /\ last_write_wins h'
  | _ :: h' => last_write_wins h'
  end.

Fixpoint deposited (h : list mailbox_event) : list Image :=
  match h with
  | [] => []
  | Deposited msg :: h' => msg :: deposited h'
  | _ :: h' => deposited h'
  end.

Fixpoint claimed_frames (h : list mailbox_event) : list Image :=
  match h with
  | [] => []
  | Claimed (Some msg) :: h' => msg :: claimed_frames h'
  | _ :: h' => claimed_frames h'
  end.

(** What [process] leaves, by the outcome of the builder. *)
Definition processed_node (self : Node) (msg : Image) (r : Result) : Node :=
  let np_image := imgmsg_to_cv2 msg in
  let published := publish_result self r in
  if _visualization self
  then publish_vis published
         (cv2_to_imgmsg
            (convertScaleAbs (_visualize published (detect np_image) np_image)))
  else published.

(** The positions at which a thread holds the lock. *)
Definition callback_in_cs (pc : callback_pc) : bool :=
  match pc with
  | CbLocked _ | CbStored => true
  | CbIdle | CbRaised _ => false
  end.

Definition loop_in_cs (pc : loop_pc) : bool :=
  match pc with
  | LLocked | LRead _ | LCleared _ => true
  | LTop | LClaimed _ | LExited _ => false
  end.

(** The frame the loop has taken out of the slot and not yet handed to
    the body of [if msg is not None:]. *)
Definition in_hand (pc : loop_pc) : list Image :=
  match pc with
  | LCleared (Some msg) | LClaimed (Some msg) => [msg]
  | _ => []
  end.

(** What every reachable state of the two threads satisfies. *)
Record invariant (w : World) : Prop := {
  inv_lock :
    _msg_lock (node w) = callback_in_cs (callback w) || loop_in_cs (loop w);
  inv_mutex :
    callback_in_cs (callback w) && loop_in_cs (loop w) = false;
  inv_slot : _last_msg (node w) = newest (history w);
  inv_read : forall v, loop w = LRead v -> v = newest (history w);
  inv_wins : last_write_wins (history w);
  inv_claimed : claimed_frames (history w) = in_hand (loop w) ++ processed w;
  inv_callback : forall e, callback w <> CbRaised e;
  inv_loop : loop w <> LExited Py.RuntimeError
}.

(** No frame was stored and no claim was made in this run of events. *)
Definition quiet (h : list mailbox_event) : Prop :=
  deposited h = [] /\ forall v, ~ In (Claimed v) h.

(** *** Further notions for the properties of the whole node *)


(** [l1] is [l2] with some entries left out, the order kept. *)
Inductive subseq {A : Type} : list A -> list A -> Prop :=
| subseq_nil : subseq [] []
| subseq_skip (l1 l2 : list A) (x : A) : subseq l1 l2 -> subseq l1 (x :: l2)
| subseq_keep (l1 l2 : list A) (x : A) : subseq l1 l2 -> subseq (x :: l1) (x :: l2).

(** The Detection Sets on which every lookup of the builder succeeds:
    at least one class id, score and mask per box, and class ids that
    the class-name table accepts as indices, from either end. *)
Definition buildable (self : Node) (result : Detections) : Prop :=
  (length (r_rois result) <= length (r_class_ids result))%nat /\
  (length (r_rois result) <= length (r_scores result))%nat /\
  (length (r_rois result) <= Np.shape2 (r_masks result))%nat /\
  forall i class_id,
    (i < length (r_rois result))%nat ->
    nth_error (r_class_ids result) i = Some class_id ->
    - Z.of_nat (length (_class_names self)) <= class_id
      < Z.of_nat (length (_class_names self)).

(** The frames the transport delivers under a schedule, in order. *)
Fixpoint delivered (schedule : list move) : list Image :=
  match schedule with
  | [] => []
  | Deliver msg :: rest => msg :: delivered rest
  | _ :: rest => delivered rest
  end.

(** The frame a callback has taken the lock for and not yet stored. *)
Definition in_flight (pc : callback_pc) : list Image :=
  match pc with
  | CbLocked msg => [msg]
  | _ => []
  end.

(** What the publishers and the configuration satisfy in every state
    reached from a start with the given parameters; the records of
    processed frames are newest first, the publishers oldest first. *)
Record accounting (visualization : bool) (class_names : list string)
       (w : World) : Prop := {
  acc_visualization : _visualization (node w) = visualization;
  acc_class_names : _class_names (node w) = class_names;
  acc_images :
    length (_vis_pub (node w))
    = if visualization then length (_result_pub (node w)) else 0%nat;
  acc_published :
    subseq (rev (map result_header (_result_pub (node w))))
           (map header (processed w));
  acc_exit :
    forall e, loop w = LExited e ->
      exists msg rest,
        processed w = msg :: rest /\
        _build_result_msg (node w) msg (detect (imgmsg_to_cv2 msg))
        = Py.Raise e
}.

(** ** Facts about indexing *)

Lemma getitem_no_RuntimeError {A : Type} (l : list A) (i : Z) :
  Py.getitem l i <> Py.Raise Py.RuntimeError.
Proof.
  unfold Py.getitem.
  destruct (_ || _); [discriminate|].
  destruct (nth_error _ _); discriminate.
Qed.

Lemma getitem_nonneg {A : Type} (l : list A) (i : Z) :
  0 <= i < Z.of_nat (length l) ->
  exists a, Py.getitem l i = Py.Return a /\ nth_error l (Z.to_nat i) = Some a.
Proof.
  intros Hi. unfold Py.getitem.
  destruct (Z.ltb_spec i 0) as [Hneg|_]; [lia|].
  destruct (Z.ltb_spec i 0) as [Hneg|_]; [lia|].
  destruct (Z.leb_spec (Z.of_nat (length l)) i) as [Hbig|_]; [lia|].
  cbn [orb].
  destruct (nth_error l (Z.to_nat i)) as [a|] eqn:E.
  - exists a. split; reflexivity.
  - apply nth_error_None in E. lia.
Qed.

Lemma getitem_negative {A : Type} (l : list A) (i : Z) :
  - Z.of_nat (length l) <= i < 0 ->
  Py.getitem l i = Py.getitem l (Z.of_nat (length l) + i).
Proof.
  intros Hi. unfold Py.getitem.
  destruct (Z.ltb_spec i 0) as [_|Hpos]; [|lia].
  destruct (Z.ltb_spec (Z.of_nat (length l) + i) 0) as [Hneg|_]; [lia|].
  replace (i + Z.of_nat (length l)) with (Z.of_nat (length l) + i) by lia.
  reflexivity.
Qed.

Lemma getitem_out_of_range {A : Type} (l : list A) (i : Z) :
  Z.of_nat (length l) <= i \/ i < - Z.of_nat (length l) ->
  Py.getitem l i = Py.Raise Py.IndexError.
Proof.
  intros Hi. unfold Py.getitem.
  destruct (Z.ltb_spec i 0) as [Hneg|Hpos].
  - destruct (Z.ltb_spec (i + Z.of_nat (length l)) 0) as [_|H]; [reflexivity|lia].
  - destruct (Z.ltb_spec i 0) as [H|_]; [lia|].
    destruct (Z.leb_spec (Z.of_nat (length l)) i) as [_|H]; [reflexivity|lia].
Qed.

Lemma getitem_enumerate {A : Type} (l : list A) (i : nat) :
  Py.getitem l (Z.of_nat i)
  = match nth_error l i with
    | Some a => Py.Return a
    | None => Py.Raise Py.IndexError
    end.
Proof.
  destruct (nth_error l i) as [a|] eqn:E.
  - assert (Hi : (i < length l)%nat) by (apply nth_error_Some; congruence).
    destruct (getitem_nonneg l (Z.of_nat i)) as [b [Hb Hn]]; [lia|].
    rewrite Nat2Z.id in Hn. congruence.
  - apply nth_error_None in E. apply getitem_out_of_range. lia.
Qed.

(** ** Facts about fixed-width integers and flattened arrays *)

Lemma wrap_in_range (bits z : Z) :
  Np.in_range bits z -> Np.wrap bits z = z.
Proof.
  unfold Np.in_range, Np.wrap. intros Hz.
  assert (Hb : 0 < bits).
  { destruct (Z.ltb_spec 0 bits) as [H|H]; [exact H|].
    assert (E : 2 ^ (bits - 1) = 0) by (apply Z.pow_neg_r; lia).
    rewrite E in Hz. lia. }
  assert (E : 2 ^ bits = 2 * 2 ^ (bits - 1)).
  { replace bits with (Z.succ (bits - 1)) at 1 by lia.
    apply Z.pow_succ_r. lia. }
  rewrite E. rewrite Z.mod_small by lia. lia.
Qed.

Lemma grid_length {A : Type} (f : nat -> nat -> A) (h w s : nat) :
  length (concat (Np.grid f s h w)) = (h * w)%nat.
Proof.
  revert s. induction h as [|h IH]; intros s; [reflexivity|].
  unfold Np.grid in *. cbn [seq map concat].
  rewrite length_app, length_map, length_seq, IH. reflexivity.
Qed.

Lemma grid_nth_error {A : Type} (f : nat -> nat -> A) (h w s r c : nat) :
  (r < h)%nat -> (c < w)%nat ->
  nth_error (concat (Np.grid f s h w)) (r * w + c) = Some (f (s + r)%nat c).
Proof.
  revert s r. induction h as [|h IH]; intros s r Hr Hc; [lia|].
  unfold Np.grid in *. cbn [seq map concat].
  destruct r as [|r].
  - rewrite nth_error_app1 by (rewrite length_map, length_seq; lia).
    cbn [Nat.mul Nat.add]. rewrite nth_error_map, nth_error_seq.
    destruct (Nat.ltb_spec c w); [|lia].
    cbn. rewrite Nat.add_0_r. reflexivity.
  - rewrite nth_error_app2 by (rewrite length_map, length_seq; lia).
    rewrite length_map, length_seq.
    replace (S r * w + c - w)%nat with (r * w + c)%nat by lia.
    rewrite IH by lia. f_equal. f_equal. lia.
Qed.

Lemma grid_skipn {A : Type} (f : nat -> nat -> A) (h w s r : nat) :
  (r <= h)%nat ->
  skipn (r * w) (concat (Np.grid f s h w)) = concat (Np.grid f (s + r) (h - r) w).
Proof.
  revert s h. induction r as [|r IH]; intros s h Hr.
  - cbn [Nat.mul skipn]. rewrite Nat.add_0_r, Nat.sub_0_r. reflexivity.
  - destruct h as [|h]; [lia|].
    unfold Np.grid in *. cbn [seq map concat].
    replace (S r * w)%nat with (length (map (fun c => f s c) (seq 0 w)) + r * w)%nat
      by (rewrite length_map, length_seq; lia).
    rewrite skipn_app, skipn_all2 by lia.
    replace (_ + r * w - _)%nat with (r * w)%nat by lia.
    cbn [app]. rewrite IH by lia.
    replace (S s + r)%nat with (s + S r)%nat by lia. reflexivity.
Qed.

Lemma reshape_grid {A : Type} (f : nat -> nat -> A) (h w : nat) :
  Np.reshape h w (concat (Np.grid f 0 h w)) = Np.grid f 0 h w.
Proof.
  unfold Np.reshape. unfold Np.grid at 2.
  apply map_ext_in. intros r Hr. apply in_seq in Hr.
  rewrite grid_skipn by lia.
  destruct (h - r)%nat as [|k] eqn:E; [lia|].
  unfold Np.grid. cbn [seq map concat].
  rewrite firstn_app.
  rewrite length_map, length_seq, Nat.sub_diag. cbn [firstn].
  rewrite app_nil_r.
  rewrite firstn_all2 by (rewrite length_map, length_seq; lia).
  reflexivity.
Qed.

Lemma grid_map {A B : Type} (g : A -> B) (f : nat -> nat -> A) (s h w : nat) :
  map g (concat (Np.grid f s h w)) = concat (Np.grid (fun r c => g (f r c)) s h w).
Proof.
  unfold Np.grid. rewrite concat_map, map_map.
  f_equal. apply map_ext. intros r. apply map_map.
Qed.

Lemma grid_ext {A : Type} (f g : nat -> nat -> A) (h w : nat) :
  (forall r c, (r < h)%nat -> (c < w)%nat -> f r c = g r c) ->
  Np.grid f 0 h w = Np.grid g 0 h w.
Proof.
  intros H. unfold Np.grid. apply map_ext_in. intros r Hr. apply in_seq in Hr.
  apply map_ext_in. intros c Hc. apply in_seq in Hc. apply H; lia.
Qed.

(** ** The result builder, instance by instance *)

Lemma mask_raster_Return (m : Np.bool3) (i : nat) (class_id : Z) :
  (i < Np.shape2 m)%nat ->
  mask_raster m i class_id
  = Py.Return
      (concat (Np.grid (fun r c => if Np.at3 m r c i then Np.int64 class_id else 0)
                       0 (Np.shape0 m) (Np.shape1 m))).
Proof.
  intros Hi. unfold mask_raster, Np.slice_last.
  destruct (Nat.ltb_spec i (Np.shape2 m)) as [_|H]; [|lia].
  cbn. f_equal. f_equal. apply grid_ext. intros r c _ _.
  destruct (Np.at3 m r c i); reflexivity.
Qed.

Lemma mask_raster_Raise (m : Np.bool3) (i : nat) (class_id : Z) :
  (Np.shape2 m <= i)%nat ->
  mask_raster m i class_id = Py.Raise Py.IndexError.
Proof.
  intros Hi. unfold mask_raster, Np.slice_last.
  destruct (Nat.ltb_spec i (Np.shape2 m)) as [H|_]; [lia|reflexivity].
Qed.

Lemma instance_at_Return (self : Node) (result : Detections) (i : nat)
      (e : Instance) :
  instance_at self result i = Py.Return e <->
  Py.getitem (r_class_ids result) (Z.of_nat i) = Py.Return (i_class_id e) /\
  Py.getitem (_class_names self) (i_class_id e) = Py.Return (i_class_name e) /\
  Py.getitem (r_scores result) (Z.of_nat i) = Py.Return (i_score e) /\
  mask_raster (r_masks result) i (i_class_id e) = Py.Return (i_raster e).
Proof.
  unfold instance_at. split.
  - destruct (Py.getitem (r_class_ids result) _) as [cid|] eqn:E1; cbn;
      [|discriminate].
    destruct (Py.getitem (_class_names self) cid) as [name|] eqn:E2; cbn;
      [|discriminate].
    destruct (Py.getitem (r_scores result) _) as [score|] eqn:E3; cbn;
      [|discriminate].
    destruct (mask_raster _ i cid) as [raster|] eqn:E4; cbn; [|discriminate].
    intros H. injection H as <-. cbn. repeat split; assumption.
  - intros [H1 [H2 [H3 H4]]]. rewrite H1. cbn. rewrite H2. cbn.
    rewrite H3. cbn. rewrite H4. cbn. destruct e; reflexivity.
Qed.

Lemma instance_at_Raise (self : Node) (result : Detections) (i : nat)
      (x : Py.exn) :
  instance_at self result i = Py.Raise x -> x = Py.IndexError.
Proof.
  unfold instance_at.
  destruct (Py.getitem (r_class_ids result) _) as [cid|x1] eqn:E1; cbn.
  - destruct (Py.getitem (_class_names self) cid) as [name|x2] eqn:E2; cbn.
    + destruct (Py.getitem (r_scores result) _) as [score|x3] eqn:E3; cbn.
      * destruct (Nat.ltb_spec i (Np.shape2 (r_masks result))) as [Hi|Hi].
        -- rewrite mask_raster_Return by exact Hi. discriminate.
        -- rewrite mask_raster_Raise by exact Hi. cbn. congruence.
      * intros H. injection H as <-. destruct x3; [reflexivity|].
        exfalso. exact (getitem_no_RuntimeError _ _ E3).
    + intros H. injection H as <-. destruct x2; [reflexivity|].
      exfalso. exact (getitem_no_RuntimeError _ _ E2).
  - intros H. injection H as <-. destruct x1; [reflexivity|].
    exfalso. exact (getitem_no_RuntimeError _ _ E1).
Qed.

Lemma build_body_instance (self : Node) (result : Detections) (i : nat)
      (roi : Z * Z * Z * Z) (m : Result) :
  build_body self result i roi m
  = (e <- instance_at self result i ;; Py.Return (extend m [roi] [e])).
Proof.
  unfold build_body, instance_at.
  destruct (Py.getitem (r_class_ids result) _) as [cid|]; cbn; [|reflexivity].
  destruct (Py.getitem (_class_names self) cid) as [name|]; cbn; [|reflexivity].
  destruct (Py.getitem (r_scores result) _) as [score|]; cbn; [|reflexivity].
  destruct (mask_raster _ i cid) as [raster|]; cbn; reflexivity.
Qed.

Lemma extend_extend (m : Result) (roi : Z * Z * Z * Z) (e : Instance)
      (rois : list (Z * Z * Z * Z)) (es : list Instance) :
  extend (extend m [roi] [e]) rois es = extend m (roi :: rois) (e :: es).
Proof.
  unfold extend. cbn. rewrite <- !app_assoc. reflexivity.
Qed.

Lemma loop_instances (self : Node) (result : Detections)
      (rois : list (Z * Z * Z * Z)) :
  forall (i : nat) (m : Result),
    Py.for_enumerate (build_body self result) i rois m
    = (es <- instances self result i rois ;; Py.Return (extend m rois es)).
Proof.
  induction rois as [|roi rest IH]; intros i m.
  - cbn. unfold extend. cbn. rewrite !app_nil_r. destruct m; reflexivity.
  - cbn [Py.for_enumerate instances]. rewrite build_body_instance.
    destruct (instance_at self result i) as [e|x]; cbn; [|reflexivity].
    rewrite IH.
    destruct (instances self result (S i) rest) as [es|x]; cbn; [|reflexivity].
    rewrite extend_extend. reflexivity.
Qed.

Lemma instances_Return (self : Node) (result : Detections)
      (rois : list (Z * Z * Z * Z)) :
  forall (i : nat) (es : list Instance),
    instances self result i rois = Py.Return es ->
    length es = length rois /\
    forall k, (k < length rois)%nat ->
      exists e, nth_error es k = Some e /\
                instance_at self result (i + k) = Py.Return e.
Proof.
  induction rois as [|roi rest IH]; intros i es H.
  - cbn in H. injection H as <-. split; [reflexivity|]. cbn. intros k Hk. lia.
  - cbn [instances] in H.
    destruct (instance_at self result i) as [e|x] eqn:E; cbn in H; [|discriminate].
    destruct (instances self result (S i) rest) as [es'|x] eqn:E'; cbn in H;
      [|discriminate].
    injection H as <-. destruct (IH _ _ E') as [Hlen Hnth].
    split; [cbn; lia|]. intros [|k] Hk.
    + exists e. rewrite Nat.add_0_r. split; [reflexivity|exact E].
    + cbn in Hk. destruct (Hnth k) as [e' [H1 H2]]; [lia|].
      exists e'. split; [exact H1|].
      replace (i + S k)%nat with (S i + k)%nat by lia. exact H2.
Qed.

Lemma instances_total (self : Node) (result : Detections)
      (rois : list (Z * Z * Z * Z)) :
  forall i : nat,
    (forall k, (k < length rois)%nat ->
       exists e, instance_at self result (i + k) = Py.Return e) ->
    exists es, instances self result i rois = Py.Return es.
Proof.
  induction rois as [|roi rest IH]; intros i H.
  - exists []. reflexivity.
  - destruct (H 0%nat) as [e He]; [cbn; lia|]. rewrite Nat.add_0_r in He.
    destruct (IH (S i)) as [es Hes].
    { intros k Hk. destruct (H (S k)) as [e' He']; [cbn; lia|].
      exists e'. replace (S i + k)%nat with (i + S k)%nat by lia. exact He'. }
    exists (e :: es). cbn [instances]. rewrite He. cbn. rewrite Hes. reflexivity.
Qed.

Lemma instances_Raise (self : Node) (result : Detections)
      (rois : list (Z * Z * Z * Z)) :
  forall (i : nat) (x : Py.exn),
    instances self result i rois = Py.Raise x -> x = Py.IndexError.
Proof.
  induction rois as [|roi rest IH]; intros i x H; [discriminate|].
  cbn [instances] in H.
  destruct (instance_at self result i) as [e|x'] eqn:E; cbn in H.
  - destruct (instances self result (S i) rest) as [es|x''] eqn:E'; cbn in H;
      [discriminate|].
    injection H as <-. exact (IH _ _ E').
  - injection H as <-. exact (instance_at_Raise _ _ _ _ E).
Qed.

Lemma build_Return (self : Node) (msg : Image) (result : Detections)
      (r : Result) :
  _build_result_msg self msg result = Py.Return r ->
  exists es,
    instances self result 0 (r_rois result) = Py.Return es /\
    length es = length (r_rois result) /\
    result_header r = header msg /\
    boxes r = map region (r_rois result) /\
    class_ids r = map i_class_id es /\
    class_names r = map i_class_name es /\
    scores r = map i_score es /\
    masks r = map (fun e => {| data := i_raster e |}) es.
Proof.
  unfold _build_result_msg. rewrite loop_instances.
  destruct (instances self result 0 (r_rois result)) as [es|x] eqn:E; cbn;
    [|discriminate].
  intros H. injection H as <-. exists es.
  destruct (instances_Return _ _ _ _ _ E) as [Hlen _].
  unfold extend. cbn. repeat split; try reflexivity. exact Hlen.
Qed.

Lemma build_Raise (self : Node) (msg : Image) (result : Detections)
      (x : Py.exn) :
  _build_result_msg self msg result = Py.Raise x -> x = Py.IndexError.
Proof.
  unfold _build_result_msg. rewrite loop_instances.
  destruct (instances self result 0 (r_rois result)) as [es|x'] eqn:E; cbn;
    [discriminate|].
  intros H. injection H as <-. exact (instances_Raise _ _ _ _ _ E).
Qed.

Lemma sub_in_bounds (a b : Z) :
  0 <= a /\ Np.in_range roi_bits a -> 0 <= b /\ Np.in_range roi_bits b ->
  Np.sub roi_bits a b = a - b.
Proof.
  intros [Ha Hra] [Hb Hrb]. unfold Np.sub. apply wrap_in_range.
  unfold Np.in_range in *. lia.
Qed.

(** C3.  In the message built from a Detection Set, the region of entry
    [i] is read off box [i = (y1, x1, y2, x2)] (top, left, bottom, right):
    [x_offset] is left, [y_offset] is top, [width] is right - left and
    [height] is bottom - top, as exact integers, the box lying within
    the image as the data model requires. *)
Theorem region_of_box (self : Node) (msg : Image) (result : Detections)
        (r : Result) (i : nat) (y1 x1 y2 x2 : Z) :
  _build_result_msg self msg result = Py.Return r ->
  nth_error (r_rois result) i = Some (y1, x1, y2, x2) ->
  box_in_bounds (y1, x1, y2, x2) ->
  nth_error (boxes r) i
  = Some {| x_offset := x1; y_offset := y1;
            height := y2 - y1; width := x2 - x1; do_rectify := false |}.
Proof.
  intros Hr Hroi [Hy1 [Hx1 [Hy2 Hx2]]].
  destruct (build_Return _ _ _ _ Hr) as [es [_ [_ [_ [Hboxes _]]]]].
  rewrite Hboxes, nth_error_map, Hroi. cbn.
  rewrite (sub_in_bounds y2 y1), (sub_in_bounds x2 x1) by assumption.
  reflexivity.
Qed.

(** C5, amended.  For every instance [i] (with a class id that a 64-bit
    integer holds) the flattened mask is a row-major raster of height x
    width entries whose foreground pixels hold the class id and whose
    background pixels hold 0; when the class id is not 0, reshaping the
    raster to (height, width) gives back the boolean mask exactly. *)
Theorem mask_round_trip (m : Np.bool3) (i : nat) (class_id : Z) :
  (i < Np.shape2 m)%nat ->
  Np.in_range 64 class_id ->
  exists raster sel,
    mask_raster m i class_id = Py.Return raster /\
    Np.slice_last m i = Py.Return sel /\
    length raster = (Np.shape0 m * Np.shape1 m)%nat /\
    (forall r c, (r < Np.shape0 m)%nat -> (c < Np.shape1 m)%nat ->
       nth_error raster (r * Np.shape1 m + c)
       = Some (if Np.bat sel r c then class_id else 0)) /\
    (class_id <> 0 ->
     raster_to_mask (Np.shape0 m) (Np.shape1 m) raster = Np.btolist sel).
Proof.
  intros Hi Hc.
  eexists. exists {| Np.brows := Np.shape0 m; Np.bcols := Np.shape1 m;
                     Np.bat := fun r c => Np.at3 m r c i |}.
  split; [apply mask_raster_Return; exact Hi|].
  split.
  { unfold Np.slice_last.
    destruct (Nat.ltb_spec i (Np.shape2 m)) as [_|H]; [reflexivity|lia]. }
  unfold Np.int64. rewrite (wrap_in_range 64 class_id Hc).
  split; [apply grid_length|].
  split.
  { intros r c Hr Hcol. rewrite grid_nth_error by assumption. reflexivity. }
  intros Hnz. unfold raster_to_mask, Np.btolist. cbn.
  rewrite grid_map, reshape_grid. apply grid_ext. intros r c _ _.
  destruct (Np.at3 m r c i); [|reflexivity].
  destruct (Z.eqb_spec class_id 0); [contradiction|reflexivity].
Qed.

(** C6.  For every well-formed Detection Set with N instances the
    builder returns a message whose five collections have N entries
    each, in the order of the Detection Set, entry [i] of each being
    computed from instance [i]: its box, its class id, the name the
    table gives that id, its score and the raster of its mask. *)
Theorem result_aligned (self : Node) (msg : Image) (result : Detections) :
  well_formed self result ->
  exists r,
    _build_result_msg self msg result = Py.Return r /\
    length (boxes r) = length (r_rois result) /\
    length (class_ids r) = length (r_rois result) /\
    length (class_names r) = length (r_rois result) /\
    length (scores r) = length (r_rois result) /\
    length (masks r) = length (r_rois result) /\
    forall i roi,
      nth_error (r_rois result) i = Some roi ->
      exists class_id class_name score raster,
        nth_error (r_class_ids result) i = Some class_id /\
        nth_error (_class_names self) (Z.to_nat class_id) = Some class_name /\
        nth_error (r_scores result) i = Some score /\
        mask_raster (r_masks result) i class_id = Py.Return raster /\
        nth_error (boxes r) i = Some (region roi) /\
        nth_error (class_ids r) i = Some class_id /\
        nth_error (class_names r) i = Some class_name /\
        nth_error (scores r) i = Some score /\
        nth_error (masks r) i = Some {| data := raster |}.
Proof.
  intros [Hids [Hscores [Hmasks Hvalid]]].
  assert (Hat : forall k, (k < length (r_rois result))%nat ->
            exists cid name score raster,
              nth_error (r_class_ids result) k = Some cid /\
              nth_error (_class_names self) (Z.to_nat cid) = Some name /\
              nth_error (r_scores result) k = Some score /\
              mask_raster (r_masks result) k cid = Py.Return raster /\
              instance_at self result k
              = Py.Return {| i_class_id := cid; i_class_name := name;
                             i_score := score; i_raster := raster |}).
  { intros k Hk.
    destruct (nth_error (r_class_ids result) k) as [cid|] eqn:E1;
      [|apply nth_error_None in E1; lia].
    destruct (nth_error (r_scores result) k) as [score|] eqn:E3;
      [|apply nth_error_None in E3; lia].
    assert (Hcid : 0 <= cid < Z.of_nat (length (_class_names self))).
    { rewrite Forall_forall in Hvalid. apply Hvalid.
      eapply nth_error_In. exact E1. }
    destruct (getitem_nonneg _ _ Hcid) as [name [Hname Hnth]].
    exists cid, name, score. eexists.
    split; [reflexivity|]. split; [exact Hnth|]. split; [reflexivity|].
    split; [apply mask_raster_Return; lia|].
    apply instance_at_Return. cbn.
    rewrite !getitem_enumerate, E1, E3.
    repeat split; try assumption. apply mask_raster_Return. lia. }
  destruct (instances_total self result (r_rois result) 0) as [es Hes].
  { intros k Hk. destruct (Hat k Hk) as [cid [name [score [raster H]]]].
    eexists. apply H. }
  destruct (instances_Return _ _ _ _ _ Hes) as [Hlen Hnth].
  exists (extend {| result_header := header msg;
                    boxes := []; class_ids := []; class_names := [];
                    scores := []; masks := [] |} (r_rois result) es).
  split.
  { unfold _build_result_msg. rewrite loop_instances, Hes. reflexivity. }
  unfold extend. cbn. rewrite !length_map.
  repeat (split; [assumption || reflexivity|]).
  intros i roi Hroi.
  assert (Hi : (i < length (r_rois result))%nat)
    by (apply nth_error_Some; congruence).
  destruct (Hat i Hi) as [cid [name [score [raster [H1 [H2 [H3 [H4 H5]]]]]]]].
  destruct (Hnth i Hi) as [e [He Hinst]]. cbn in Hinst.
  rewrite H5 in Hinst. injection Hinst as <-.
  exists cid, name, score, raster.
  rewrite !nth_error_map, Hroi, He. cbn. repeat split; assumption.
Qed.

(** C9.  The other lookups of an iteration succeeding, the lookup
    [self._class_names[class_id]] raises [IndexError] exactly when
    [class_id >= len] or [class_id < -len] of the table; a negative
    [class_id >= -len] raises nothing and resolves to the entry at
    index [len + class_id]. *)
Theorem class_name_lookup (self : Node) (result : Detections) (i : nat)
        (roi : Z * Z * Z * Z) (m : Result)
        (class_id : Z) (score : Score) (raster : list Z) :
  Py.getitem (r_class_ids result) (Z.of_nat i) = Py.Return class_id ->
  Py.getitem (r_scores result) (Z.of_nat i) = Py.Return score ->
  mask_raster (r_masks result) i class_id = Py.Return raster ->
  let n := Z.of_nat (length (_class_names self)) in
  (build_body self result i roi m = Py.Raise Py.IndexError
   <-> n <= class_id \/ class_id < - n) /\
  (Py.getitem (_class_names self) class_id = Py.Raise Py.IndexError
   <-> n <= class_id \/ class_id < - n) /\
  (- n <= class_id < 0 ->
   exists class_name,
     nth_error (_class_names self) (Z.to_nat (n + class_id)) = Some class_name /\
     Py.getitem (_class_names self) class_id = Py.Return class_name /\
     build_body self result i roi m
     = Py.Return (extend m [roi]
                    [{| i_class_id := class_id; i_class_name := class_name;
                        i_score := score; i_raster := raster |}])).
Proof.
  intros Hid Hscore Hmask n.
  assert (Hbody : forall o,
            Py.getitem (_class_names self) class_id = o ->
            build_body self result i roi m
            = match o with
              | Py.Return class_name =>
                  Py.Return (extend m [roi]
                    [{| i_class_id := class_id; i_class_name := class_name;
                        i_score := score; i_raster := raster |}])
              | Py.Raise x => Py.Raise x
              end).
  { intros o Ho. rewrite build_body_instance. unfold instance_at.
    rewrite Hid. cbn. rewrite Ho. destruct o as [name|x]; cbn; [|reflexivity].
    rewrite Hscore. cbn. rewrite Hmask. reflexivity. }
  assert (Hlookup : Py.getitem (_class_names self) class_id = Py.Raise Py.IndexError
                    <-> n <= class_id \/ class_id < - n).
  { split.
    - intros Hraise.
      destruct (Z.le_gt_cases n class_id) as [H|H]; [left; exact H|].
      destruct (Z.lt_ge_cases class_id (- n)) as [H'|H']; [right; exact H'|].
      exfalso. destruct (Z.lt_ge_cases class_id 0) as [Hneg|Hpos].
      + rewrite getitem_negative in Hraise by (fold n; lia).
        destruct (getitem_nonneg (_class_names self) (n + class_id))
          as [a [Ha _]]; [fold n; lia|].
        fold n in Hraise. congruence.
      + destruct (getitem_nonneg (_class_names self) class_id)
          as [a [Ha _]]; [fold n; lia|].
        congruence.
    - apply getitem_out_of_range. }
  split; [|split; [exact Hlookup|]].
  - rewrite (Hbody _ eq_refl). rewrite <- Hlookup.
    destruct (Py.getitem (_class_names self) class_id) as [name|x].
    + split; discriminate.
    + split; intros H; injection H as ->; reflexivity.
  - intros Hneg.
    destruct (getitem_nonneg (_class_names self) (n + class_id))
      as [name [Hname Hnth]]; [fold n; lia|].
    exists name. split; [exact Hnth|].
    assert (Hget : Py.getitem (_class_names self) class_id = Py.Return name).
    { rewrite getitem_negative by (fold n; lia). exact Hname. }
    split; [exact Hget|]. rewrite (Hbody _ Hget). reflexivity.
Qed.

(** ** The mailbox operations and one iteration of the loop *)

Lemma callback_free (self : Node) (msg : Image) :
  _msg_lock self = false ->
  _image_callback msg self = (set_last_msg self (Some msg), Py.Return tt).
Proof.
  intros Hlock. unfold _image_callback, bind_action, acquire_nowait.
  rewrite Hlock. cbn. destruct self; cbn in *. subst. reflexivity.
Qed.

Lemma callback_held (self : Node) (msg : Image) :
  _msg_lock self = true ->
  _image_callback msg self = (self, Py.Return tt).
Proof.
  intros Hlock. unfold _image_callback, bind_action, acquire_nowait.
  rewrite Hlock. reflexivity.
Qed.

Lemma claim_free (self : Node) :
  _msg_lock self = false ->
  claim self = (set_last_msg self None, Py.Return (Got (_last_msg self))).
Proof.
  intros Hlock. unfold claim, bind_action, acquire_nowait.
  rewrite Hlock. cbn. destruct self; cbn in *. subst. reflexivity.
Qed.

Lemma claim_held (self : Node) :
  _msg_lock self = true -> claim self = (self, Py.Return Skipped).
Proof.
  intros Hlock. unfold claim, bind_action, acquire_nowait.
  rewrite Hlock. reflexivity.
Qed.

Lemma run_iteration_held (self : Node) :
  _msg_lock self = true -> run_iteration self = (self, Py.Return tt).
Proof.
  intros Hlock. unfold run_iteration, bind_action.
  rewrite (claim_held self Hlock). reflexivity.
Qed.

Lemma run_iteration_free (self : Node) :
  _msg_lock self = false ->
  run_iteration self
  = match _last_msg self with
    | Some msg => process msg (set_last_msg self None)
    | None => (set_last_msg self None, Py.Return tt)
    end.
Proof.
  intros Hlock. unfold run_iteration, bind_action.
  rewrite (claim_free self Hlock). destruct (_last_msg self); reflexivity.
Qed.

Lemma process_outcome (self : Node) (msg : Image) :
  process msg self
  = match _build_result_msg self msg (detect (imgmsg_to_cv2 msg)) with
    | Py.Return r => (processed_node self msg r, Py.Return tt)
    | Py.Raise x => (self, Py.Raise x)
    end.
Proof.
  unfold process, processed_node, bind_action.
  destruct (_build_result_msg self msg _) as [r|x]; [|reflexivity].
  cbn. destruct (_visualization self); reflexivity.
Qed.

Lemma processed_node_results (self : Node) (msg : Image) (r : Result) :
  _result_pub (processed_node self msg r) = _result_pub self ++ [r] /\
  _last_msg (processed_node self msg r) = _last_msg self /\
  _msg_lock (processed_node self msg r) = _msg_lock self.
Proof.
  unfold processed_node. destruct (_visualization self); cbn; auto.
Qed.

Lemma process_keeps_mailbox (self : Node) (msg : Image) :
  _last_msg (fst (process msg self)) = _last_msg self /\
  _msg_lock (fst (process msg self)) = _msg_lock self.
Proof.
  rewrite process_outcome.
  destruct (_build_result_msg self msg _) as [r|x]; cbn; [|auto].
  destruct (processed_node_results self msg r) as [_ [H1 H2]]. auto.
Qed.

(** C7.  Contention makes neither operation wait or fail: with the lock
    taken, the callback returns at once without an error and leaves the
    node as it was (the frame is dropped, nothing is retried), and the
    claim of the loop returns without a frame and without an error, the
    node unchanged, so that the iteration does nothing. *)
Theorem contention_skips (self : Node) (msg : Image) :
  _msg_lock self = true ->
  _image_callback msg self = (self, Py.Return tt) /\
  claim self = (self, Py.Return Skipped) /\
  run_iteration self = (self, Py.Return tt).
Proof.
  intros Hlock. split; [|split].
  - apply callback_held. exact Hlock.
  - apply claim_held. exact Hlock.
  - apply run_iteration_held. exact Hlock.
Qed.

(** C8.  Whenever a frame is processed, the record that is published
    carries the header of that frame unchanged; when the builder raises,
    nothing is published. *)
Theorem header_propagated (self : Node) (msg : Image) :
  match process msg self with
  | (self', Py.Return _) =>
      exists r,
        _build_result_msg self msg (detect (imgmsg_to_cv2 msg)) = Py.Return r /\
        _result_pub self' = _result_pub self ++ [r] /\
        result_header r = header msg
  | (self', Py.Raise _) => _result_pub self' = _result_pub self
  end.
Proof.
  rewrite process_outcome.
  destruct (_build_result_msg self msg _) as [r|x] eqn:E; [|reflexivity].
  exists r. split; [reflexivity|].
  split; [apply processed_node_results|].
  destruct (build_Return _ _ _ _ E) as [es [_ [_ [Hh _]]]]. exact Hh.
Qed.

(** C10.  A frame whose Detection Set has no instance is processed like
    any other: the builder returns the record with the header of the
    frame and five empty collections, and the iteration publishes it and
    ends without an error. *)
Theorem empty_detection_published (self : Node) (msg : Image) :
  _msg_lock self = false ->
  _last_msg self = Some msg ->
  r_rois (detect (imgmsg_to_cv2 msg)) = [] ->
  let empty := {| result_header := header msg;
                  boxes := []; class_ids := []; class_names := [];
                  scores := []; masks := [] |} in
  _build_result_msg self msg (detect (imgmsg_to_cv2 msg)) = Py.Return empty /\
  exists self',
    run_iteration self = (self', Py.Return tt) /\
    _result_pub self' = _result_pub self ++ [empty] /\
    _last_msg self' = None.
Proof.
  intros Hlock Hmsg Hrois empty.
  assert (Hbuild : forall s : Node,
            _build_result_msg s msg (detect (imgmsg_to_cv2 msg)) = Py.Return empty).
  { intros s. unfold _build_result_msg. rewrite Hrois. reflexivity. }
  split; [apply Hbuild|].
  rewrite (run_iteration_free self Hlock), Hmsg, process_outcome, Hbuild.
  eexists. split; [reflexivity|].
  destruct (processed_node_results (set_last_msg self None) msg empty)
    as [H1 [H2 _]].
  split; [exact H1|exact H2].
Qed.

Lemma build_rejects (self : Node) (msg : Image) (result : Detections)
      (i : nat) (class_id : Z) :
  (i < length (r_rois result))%nat ->
  nth_error (r_class_ids result) i = Some class_id ->
  Z.of_nat (length (_class_names self)) <= class_id ->
  _build_result_msg self msg result = Py.Raise Py.IndexError.
Proof.
  intros Hi Hid Hbig.
  destruct (_build_result_msg self msg result) as [r|x] eqn:E.
  - exfalso.
    destruct (build_Return _ _ _ _ E) as [es [Hes _]].
    destruct (instances_Return _ _ _ _ _ Hes) as [_ Hnth].
    destruct (Hnth i Hi) as [e [_ He]]. cbn in He.
    apply instance_at_Return in He. destruct He as [H1 [H2 _]].
    rewrite getitem_enumerate, Hid in H1. injection H1 as H1.
    rewrite <- H1 in H2.
    rewrite getitem_out_of_range in H2 by (left; exact Hbig). discriminate.
  - f_equal. exact (build_Raise _ _ _ _ E).
Qed.

(** C2, amended.  When the Detection Set of the claimed frame has an
    instance whose class id is at least the length of the class-name
    table, the builder raises [IndexError], no record of that iteration
    is published, and the exception leaves [run]: the loop ends with it,
    whatever iterations would have followed. *)
Theorem bad_class_id_ends_run (self : Node) (msg : Image) (polls : list bool)
        (i : nat) (class_id : Z) :
  _msg_lock self = false ->
  _last_msg self = Some msg ->
  (i < length (r_rois (detect (imgmsg_to_cv2 msg))))%nat ->
  nth_error (r_class_ids (detect (imgmsg_to_cv2 msg))) i = Some class_id ->
  Z.of_nat (length (_class_names self)) <= class_id ->
  _build_result_msg self msg (detect (imgmsg_to_cv2 msg))
  = Py.Raise Py.IndexError /\
  run (false :: polls) self = (set_last_msg self None, Py.Raise Py.IndexError).
Proof.
  intros Hlock Hmsg Hi Hid Hbig.
  split; [exact (build_rejects self msg _ i class_id Hi Hid Hbig)|].
  cbn [run]. unfold bind_action at 1.
  rewrite (run_iteration_free self Hlock), Hmsg, process_outcome.
  rewrite (build_rejects (set_last_msg self None) msg _ i class_id Hi Hid Hbig).
  reflexivity.
Qed.

(** ** The mailbox under every interleaving *)

Lemma invariant_boot (visualization : bool) (class_names : list string) :
  invariant (boot visualization class_names).
Proof.
  constructor; cbn; try reflexivity; discriminate.
Qed.

Ltac inv_open Hinv E :=
  destruct Hinv as [Hlock Hmutex Hslot Hread Hwins Hclaimed Hcb Hloop];
  rewrite E in *;
  cbn in Hlock, Hmutex, Hclaimed;
  rewrite ?orb_false_r, ?orb_true_r in Hlock;
  rewrite ?andb_false_r, ?andb_true_r in Hmutex.

Ltac inv_field :=
  cbn;
  rewrite ?orb_false_r, ?orb_true_r, ?andb_false_r, ?andb_true_r;
  try assumption; try reflexivity; try discriminate;
  try (intros; discriminate);
  try congruence.

Lemma invariant_deliver (w : World) (msg : Image) :
  invariant w -> invariant (deliver msg w).
Proof.
  intros Hinv. unfold deliver.
  destruct (callback w) eqn:Ecb; try exact Hinv.
  inv_open Hinv Ecb. unfold acquire_nowait.
  destruct (_msg_lock (node w)) eqn:El; constructor; inv_field.
Qed.

Lemma invariant_subscriber_step (w : World) :
  invariant w -> invariant (subscriber_step w).
Proof.
  intros Hinv. unfold subscriber_step.
  destruct (callback w) as [|msg| |e] eqn:Ecb; try exact Hinv.
  - inv_open Hinv Ecb. constructor; inv_field.
    intros v Hv. rewrite Hv in Hmutex. discriminate.
  - inv_open Hinv Ecb. unfold release. rewrite Hlock.
    constructor; inv_field.
Qed.

Lemma process_raises_IndexError (self self' : Node) (msg : Image) (e : Py.exn) :
  process msg self = (self', Py.Raise e) -> e = Py.IndexError.
Proof.
  rewrite process_outcome.
  destruct (_build_result_msg _ _ _) as [r|x] eqn:E; [discriminate|].
  intros H. injection H as _ <-. exact (build_Raise _ _ _ _ E).
Qed.

Lemma invariant_main_step (w : World) :
  invariant w -> invariant (main_step w).
Proof.
  intros Hinv. unfold main_step.
  destruct (loop w) as [| |v|v|[msg|]|e] eqn:Eloop; try exact Hinv.
  - (* the lock is tried *)
    inv_open Hinv Eloop. unfold acquire_nowait.
    destruct (_msg_lock (node w)) eqn:El; constructor; inv_field.
  - (* the slot is read *)
    inv_open Hinv Eloop. constructor; inv_field.
  - (* the slot is cleared *)
    inv_open Hinv Eloop. constructor; inv_field.
    + split; [apply Hread; reflexivity|exact Hwins].
    + destruct v; cbn; rewrite Hclaimed; reflexivity.
  - (* the lock is released *)
    inv_open Hinv Eloop. unfold release. rewrite Hlock.
    constructor; inv_field.
  - (* the frame is processed *)
    inv_open Hinv Eloop.
    destruct (process_keeps_mailbox (node w) msg) as [Hkeep1 Hkeep2].
    destruct (process msg (node w)) as [self [u|e]] eqn:E;
      cbn [fst] in Hkeep1, Hkeep2.
    + constructor; inv_field.
    + constructor; inv_field.
      rewrite (process_raises_IndexError _ _ _ _ E). discriminate.
  - (* there was no frame *)
    inv_open Hinv Eloop. constructor; inv_field.
Qed.

Lemma invariant_exec (schedule : list move) :
  forall w, invariant w -> invariant (exec schedule w).
Proof.
  unfold exec. induction schedule as [|m rest IH]; intros w Hw; [exact Hw|].
  cbn [fold_left]. apply IH. destruct m; cbn [step].
  - apply invariant_deliver. exact Hw.
  - apply invariant_subscriber_step. exact Hw.
  - apply invariant_main_step. exact Hw.
Qed.

(** Facts about the record alone. *)

Lemma wins_split (later earlier : list mailbox_event) (v : option Image) :
  last_write_wins (later ++ Claimed v :: earlier) -> v = newest earlier.
Proof.
  induction later as [|e later IH]; cbn.
  - intros [H _]. exact H.
  - destruct e; try exact IH. intros [_ H]. exact (IH H).
Qed.

Lemma newest_quiet (between rest : list mailbox_event) :
  quiet between -> newest (between ++ rest) = newest rest.
Proof.
  unfold quiet. induction between as [|e between IH]; [reflexivity|].
  intros [Hd Hc]. destruct e; cbn in *.
  - discriminate.
  - apply IH. split; [exact Hd|]. intros v Hv. apply (Hc v). right. exact Hv.
  - exfalso. apply (Hc msg). left. reflexivity.
  - apply IH. split; [exact Hd|]. intros v Hv. apply (Hc v). right. exact Hv.
Qed.

Lemma claims_of_deposits (h : list mailbox_event) :
  last_write_wins h ->
  NoDup (deposited h) ->
  NoDup (claimed_frames h) /\
  incl (claimed_frames h) (deposited h) /\
  forall msg, newest h = Some msg ->
              In msg (deposited h) /\ ~ In msg (claimed_frames h).
Proof.
  induction h as [|e h IH]; cbn.
  - intros _ _. split; [constructor|]. split; [intros x []|discriminate].
  - destruct e as [msg|msg|[msg|]|]; cbn.
    + intros Hw Hd. inversion Hd as [|x l Hnotin Hd']; subst.
      destruct (IH Hw Hd') as [H1 [H2 H3]].
      split; [exact H1|]. split; [intros x Hx; right; apply H2; exact Hx|].
      intros m Hm. injection Hm as <-.
      split; [left; reflexivity|]. intros Hin. apply Hnotin, H2, Hin.
    + intros Hw Hd. exact (IH Hw Hd).
    + intros [Hv Hw] Hd. destruct (IH Hw Hd) as [H1 [H2 H3]].
      destruct (H3 msg (eq_sym Hv)) as [Hin Hnotin].
      split; [constructor; assumption|].
      split; [|discriminate].
      intros x [<-|Hx]; [exact Hin|apply H2; exact Hx].
    + intros [_ Hw] Hd. destruct (IH Hw Hd) as [H1 [H2 _]].
      split; [exact H1|]. split; [exact H2|discriminate].
    + intros Hw Hd. exact (IH Hw Hd).
Qed.

Lemma step_processes_at_most_one (w : World) (m : move) :
  (length (processed (step w m)) <= S (length (processed w)))%nat.
Proof.
  destruct m; cbn [step].
  - unfold deliver. destruct (callback w); try lia.
    destruct (acquire_nowait (node w)) as [self [[|]|e]]; cbn [processed]; lia.
  - unfold subscriber_step. destruct (callback w); try (cbn [processed]; lia).
    destruct (release (node w)) as [self [u|e]]; cbn [processed]; lia.
  - unfold main_step.
    destruct (loop w) as [| |v|v|[msg|]|e]; try (cbn [processed]; lia).
    + destruct (acquire_nowait (node w)) as [self [[|]|e]]; cbn [processed]; lia.
    + destruct (release (node w)) as [self [u|e]]; cbn [processed]; lia.
    + destruct (process msg (node w)) as [self [u|e]]; cbn [processed length]; lia.
Qed.

Lemma iteration_publishes_at_most_one (self : Node) :
  (length (_result_pub (fst (run_iteration self)))
   <= S (length (_result_pub self)))%nat.
Proof.
  destruct (_msg_lock self) eqn:El.
  - rewrite (run_iteration_held self El). cbn. lia.
  - rewrite (run_iteration_free self El).
    destruct (_last_msg self) as [msg|]; [|cbn; lia].
    rewrite process_outcome.
    destruct (_build_result_msg _ _ _) as [r|x]; cbn; [|lia].
    destruct (processed_node_results (set_last_msg self None) msg r) as [H _].
    rewrite H, length_app. cbn. lia.
Qed.

(** Run without interruption, the statements of a callback and of an
    iteration are the methods above. *)
Lemma callback_uninterrupted (w : World) (msg : Image) :
  callback w = CbIdle ->
  node (exec [Deliver msg; SubscriberStep; SubscriberStep] w)
  = fst (_image_callback msg (node w)).
Proof.
  intros Hcb. unfold exec. cbn [fold_left step].
  unfold deliver. rewrite Hcb.
  unfold _image_callback, bind_action, acquire_nowait.
  destruct (_msg_lock (node w)) eqn:El.
  - unfold subscriber_step. cbn. reflexivity.
  - unfold subscriber_step. cbn. reflexivity.
Qed.

Lemma main_step_held (w : World) :
  loop w = LTop -> _msg_lock (node w) = true ->
  node (main_step w) = node w /\ loop (main_step w) = LTop.
Proof.
  intros Hloop Hlock. unfold main_step, acquire_nowait.
  rewrite Hloop, Hlock. split; reflexivity.
Qed.

Lemma iteration_uninterrupted (w : World) :
  loop w = LTop ->
  node (exec [MainStep; MainStep; MainStep; MainStep; MainStep] w)
  = fst (run_iteration (node w)).
Proof.
  intros Hloop. unfold exec. cbn [fold_left step].
  destruct (_msg_lock (node w)) eqn:El.
  - rewrite (run_iteration_held _ El). cbn [fst].
    destruct (main_step_held w Hloop El) as [N1 L1].
    destruct (main_step_held _ L1 (eq_trans (f_equal _ N1) El)) as [N2 L2].
    rewrite N1 in N2.
    destruct (main_step_held _ L2 (eq_trans (f_equal _ N2) El)) as [N3 L3].
    rewrite N2 in N3.
    destruct (main_step_held _ L3 (eq_trans (f_equal _ N3) El)) as [N4 L4].
    rewrite N3 in N4.
    destruct (main_step_held _ L4 (eq_trans (f_equal _ N4) El)) as [N5 L5].
    rewrite N4 in N5. exact N5.
  - destruct w as [[vis names last lock results images] cb lp h p].
    cbn [loop node _msg_lock] in Hloop, El. subst lp lock.
    rewrite run_iteration_free by reflexivity.
    cbv beta iota delta [main_step acquire_nowait release loop node callback
                         history processed _msg_lock _last_msg set_msg_lock
                         set_last_msg _visualization _class_names
                         _result_pub _vis_pub].
    destruct last as [msg|]; [|reflexivity].
    cbv beta iota.
    destruct (process msg _) as [self [u|e]]; reflexivity.
Qed.

(** C1.  Under every interleaving of the callback and the loop, the slot
    holds exactly the frame stored last since it was last cleared (so
    never more than one), and a claim observes that frame: after
    deposits with no claim in between, the claim finds the frame of the
    last deposit that took the lock, whatever was stored before it; and
    a claim that follows another claim, or the start, with no deposit in
    between finds nothing, the earlier frames being gone. *)
Theorem mailbox_last_write_wins (visualization : bool)
        (class_names : list string) (schedule : list move) :
  let w := exec schedule (boot visualization class_names) in
  _last_msg (node w) = newest (history w) /\
  (forall later between earlier v msg,
      history w = later ++ Claimed v :: between ++ Deposited msg :: earlier ->
      quiet between -> v = Some msg) /\
  (forall later between earlier v v',
      history w = later ++ Claimed v :: between ++ Claimed v' :: earlier ->
      quiet between -> v = None) /\
  (forall later between v,
      history w = later ++ Claimed v :: between ->
      quiet between -> v = None).
Proof.
  intros w.
  assert (Hinv : invariant w)
    by (apply invariant_exec, invariant_boot).
  destruct Hinv as [_ _ Hslot _ Hwins _ _ _].
  split; [exact Hslot|].
  split; [|split].
  - intros later between earlier v msg Hh Hq. rewrite Hh in Hwins.
    rewrite (wins_split _ _ _ Hwins), (newest_quiet _ _ Hq). reflexivity.
  - intros later between earlier v v' Hh Hq. rewrite Hh in Hwins.
    rewrite (wins_split _ _ _ Hwins), (newest_quiet _ _ Hq). reflexivity.
  - intros later between v Hh Hq. rewrite Hh in Hwins.
    rewrite (wins_split _ _ _ Hwins).
    rewrite <- (app_nil_r between), (newest_quiet _ _ Hq). reflexivity.
Qed.

(** C4.  A claim that takes the lock returns the frame held and leaves
    the slot empty; an iteration of the loop publishes at most one
    record and a step hands at most one frame to the loop body; and
    under every interleaving, the frames stored being distinct, no frame
    is returned by two claims and none is processed twice: the claimed
    frames are distinct frames that were stored, and the processed
    frames are distinct frames that were claimed. *)
Theorem claimed_once (visualization : bool) (class_names : list string)
        (schedule : list move) :
  let w := exec schedule (boot visualization class_names) in
  (forall self,
      _msg_lock self = false ->
      claim self = (set_last_msg self None, Py.Return (Got (_last_msg self)))) /\
  (forall self,
      (length (_result_pub (fst (run_iteration self)))
       <= S (length (_result_pub self)))%nat) /\
  (forall m, (length (processed (step w m)) <= S (length (processed w)))%nat) /\
  (NoDup (deposited (history w)) ->
   NoDup (claimed_frames (history w)) /\
   incl (claimed_frames (history w)) (deposited (history w)) /\
   NoDup (processed w) /\
   incl (processed w) (claimed_frames (history w))).
Proof.
  intros w.
  split; [exact claim_free|].
  split; [exact iteration_publishes_at_most_one|].
  split; [exact (step_processes_at_most_one w)|].
  intros Hd.
  assert (Hinv : invariant w)
    by (apply invariant_exec, invariant_boot).
  destruct Hinv as [_ _ _ _ Hwins Hclaimed _ _].
  destruct (claims_of_deposits _ Hwins Hd) as [Hnodup [Hincl _]].
  split; [exact Hnodup|]. split; [exact Hincl|].
  rewrite Hclaimed in Hnodup. rewrite Hclaimed.
  split; [exact (NoDup_app_remove_l _ _ Hnodup)|].
  apply incl_appr, incl_refl.
Qed.

(** ** Subsequences *)

Lemma subseq_refl {A : Type} (l : list A) : subseq l l.
Proof.
  induction l as [|x l IH]; [constructor|]. apply subseq_keep. exact IH.
Qed.

Lemma subseq_nil_l {A : Type} (l : list A) : subseq [] l.
Proof.
  induction l as [|x l IH]; [constructor|]. apply subseq_skip. exact IH.
Qed.

Lemma subseq_trans {A : Type} (l2 l3 : list A) :
  subseq l2 l3 -> forall l1, subseq l1 l2 -> subseq l1 l3.
Proof.
  induction 1 as [|l2 l3 x H IH|l2 l3 x H IH]; intros l1 H1.
  - exact H1.
  - apply subseq_skip. apply IH. exact H1.
  - inversion H1 as [|a b c H'|a b c H']; subst.
    + apply subseq_skip. apply IH. exact H'.
    + apply subseq_keep. apply IH. exact H'.
Qed.

Lemma subseq_app {A : Type} (a b c d : list A) :
  subseq a b -> subseq c d -> subseq (a ++ c) (b ++ d).
Proof.
  intros Hab Hcd. induction Hab as [|a b x H IH|a b x H IH]; cbn.
  - exact Hcd.
  - apply subseq_skip. exact IH.
  - apply subseq_keep. exact IH.
Qed.

Lemma subseq_rev {A : Type} (a b : list A) :
  subseq a b -> subseq (rev a) (rev b).
Proof.
  induction 1 as [|a b x H IH|a b x H IH]; cbn.
  - constructor.
  - rewrite <- (app_nil_r (rev a)). apply subseq_app; [exact IH|].
    apply subseq_nil_l.
  - apply subseq_app; [exact IH|apply subseq_refl].
Qed.

Lemma subseq_map {A B : Type} (f : A -> B) (a b : list A) :
  subseq a b -> subseq (map f a) (map f b).
Proof.
  induction 1 as [|a b x H IH|a b x H IH]; cbn.
  - constructor.
  - apply subseq_skip. exact IH.
  - apply subseq_keep. exact IH.
Qed.

Lemma subseq_length {A : Type} (a b : list A) :
  subseq a b -> (length a <= length b)%nat.
Proof.
  induction 1 as [|a b x H IH|a b x H IH]; cbn; lia.
Qed.

Lemma subseq_NoDup {A : Type} (a b : list A) :
  subseq a b -> NoDup b -> NoDup a.
Proof.
  induction 1 as [|a b x H IH|a b x H IH]; intros Hb.
  - exact Hb.
  - inversion Hb; subst. apply IH. assumption.
  - inversion Hb as [|y l Hnotin Hb']; subst. constructor; [|apply IH; exact Hb'].
    intros Hin. apply Hnotin. clear - H Hin.
    induction H as [|a b y H IH|a b y H IH]; [destruct Hin| |].
    + right. apply IH. exact Hin.
    + destruct Hin as [<-|Hin]; [left; reflexivity|right; apply IH; exact Hin].
Qed.

(** ** The builder on every Detection Set *)

Lemma skipn_nth_error {A : Type} (l : list A) :
  forall (i : nat) (a : A),
    nth_error l i = Some a -> skipn i l = a :: skipn (S i) l.
Proof.
  induction l as [|x l IH]; intros [|i] a H; try discriminate.
  - cbn in H. injection H as <-. reflexivity.
  - cbn in H. cbn [skipn]. rewrite (IH i a H). reflexivity.
Qed.

Lemma instances_copied (self : Node) (result : Detections)
      (rois : list (Z * Z * Z * Z)) :
  forall (i : nat) (es : list Instance),
    instances self result i rois = Py.Return es ->
    map i_class_id es = firstn (length rois) (skipn i (r_class_ids result)) /\
    map i_score es = firstn (length rois) (skipn i (r_scores result)).
Proof.
  induction rois as [|roi rest IH]; intros i es H.
  - cbn in H. injection H as <-. split; reflexivity.
  - cbn [instances] in H.
    destruct (instance_at self result i) as [e|x] eqn:E; cbn in H; [|discriminate].
    destruct (instances self result (S i) rest) as [es'|x] eqn:E'; cbn in H;
      [|discriminate].
    injection H as <-. destruct (IH _ _ E') as [H1 H2].
    apply instance_at_Return in E. destruct E as [Hid [_ [Hscore _]]].
    rewrite getitem_enumerate in Hid. rewrite getitem_enumerate in Hscore.
    destruct (nth_error (r_class_ids result) i) as [cid|] eqn:N1;
      [|discriminate].
    destruct (nth_error (r_scores result) i) as [score|] eqn:N2;
      [|discriminate].
    injection Hid as Hid. injection Hscore as Hscore.
    rewrite (skipn_nth_error _ _ _ N1), (skipn_nth_error _ _ _ N2).
    cbn [length firstn map]. rewrite H1, H2, Hid, Hscore. split; reflexivity.
Qed.

Lemma instances_each (self : Node) (result : Detections)
      (rois : list (Z * Z * Z * Z)) (i : nat) (es : list Instance) :
  instances self result i rois = Py.Return es ->
  Forall (fun e => exists k, instance_at self result k = Py.Return e) es.
Proof.
  intros H. destruct (instances_Return _ _ _ _ _ H) as [Hlen Hnth].
  apply Forall_forall. intros e Hin.
  destruct (In_nth_error _ _ Hin) as [k Hk].
  assert (Hlt : (k < length rois)%nat).
  { rewrite <- Hlen. apply nth_error_Some. congruence. }
  destruct (Hnth k Hlt) as [e' [He' Hat]].
  exists (i + k)%nat. congruence.
Qed.

Lemma Forall2_map_same {A B C : Type} (R : B -> C -> Prop)
      (f : A -> B) (g : A -> C) (l : list A) :
  Forall (fun a => R (f a) (g a)) l -> Forall2 R (map f l) (map g l).
Proof.
  induction 1; cbn; constructor; assumption.
Qed.

Lemma grid_Forall {A : Type} (P : A -> Prop) (f : nat -> nat -> A)
      (s h w : nat) :
  (forall r c, P (f r c)) -> Forall P (concat (Np.grid f s h w)).
Proof.
  intros H. apply Forall_forall. intros a Hin.
  apply in_concat in Hin. destruct Hin as [row [Hrow Ha]].
  unfold Np.grid in Hrow. apply in_map_iff in Hrow.
  destruct Hrow as [r [<- _]]. apply in_map_iff in Ha.
  destruct Ha as [c [<- _]]. apply H.
Qed.

Lemma mask_raster_shape (m : Np.bool3) (i : nat) (class_id : Z)
      (raster : list Z) :
  mask_raster m i class_id = Py.Return raster ->
  (i < Np.shape2 m)%nat /\
  length raster = (Np.shape0 m * Np.shape1 m)%nat /\
  Forall (fun v => v = 0 \/ v = Np.int64 class_id) raster.
Proof.
  intros H. destruct (Nat.ltb_spec i (Np.shape2 m)) as [Hi|Hi].
  - rewrite (mask_raster_Return m i class_id Hi) in H. injection H as <-.
    split; [exact Hi|]. split; [apply grid_length|].
    apply grid_Forall. intros r c. destruct (Np.at3 m r c i); auto.
  - rewrite (mask_raster_Raise m i class_id Hi) in H. discriminate.
Qed.

(** X1.  The builder returns a record exactly on the Detection Sets
    that have a class id, a score and a mask for each box and whose
    class ids (of the boxes) the class-name table accepts as indices;
    entries beyond the boxes are not looked at.  On every other
    Detection Set it raises [IndexError]. *)
Theorem builder_domain (self : Node) (msg : Image) (result : Detections) :
  ((exists r, _build_result_msg self msg result = Py.Return r)
   <-> buildable self result) /\
  (_build_result_msg self msg result = Py.Raise Py.IndexError
   <-> ~ buildable self result).
Proof.
  assert (Hto : buildable self result ->
                exists r, _build_result_msg self msg result = Py.Return r).
  { intros [Hids [Hscores [Hmasks Hvalid]]].
    destruct (instances_total self result (r_rois result) 0) as [es Hes].
    { intros k Hk. cbn.
      destruct (nth_error (r_class_ids result) k) as [cid|] eqn:E1;
        [|apply nth_error_None in E1; lia].
      destruct (nth_error (r_scores result) k) as [score|] eqn:E3;
        [|apply nth_error_None in E3; lia].
      pose proof (Hvalid k cid Hk E1) as Hcid.
      assert (Hname : exists name,
                 Py.getitem (_class_names self) cid = Py.Return name).
      { destruct (Z.lt_ge_cases cid 0) as [Hneg|Hpos].
        - rewrite getitem_negative by lia.
          destruct (getitem_nonneg (_class_names self)
                      (Z.of_nat (length (_class_names self)) + cid))
            as [a [Ha _]]; [lia|].
          exists a. exact Ha.
        - destruct (getitem_nonneg (_class_names self) cid) as [a [Ha _]];
            [lia|].
          exists a. exact Ha. }
      destruct Hname as [name Hname].
      eexists {| i_class_id := cid; i_class_name := name; i_score := score;
                 i_raster := _ |}.
      apply instance_at_Return. cbn. rewrite !getitem_enumerate, E1, E3.
      repeat split; try assumption. apply mask_raster_Return. lia. }
    eexists. unfold _build_result_msg. rewrite loop_instances, Hes.
    reflexivity. }
  assert (Hfrom : forall r, _build_result_msg self msg result = Py.Return r ->
                            buildable self result).
  { intros r Hr. destruct (build_Return _ _ _ _ Hr) as [es [Hes _]].
    destruct (instances_Return _ _ _ _ _ Hes) as [_ Hnth].
    assert (Hat : forall k, (k < length (r_rois result))%nat ->
              exists e, instance_at self result k = Py.Return e).
    { intros k Hk. destruct (Hnth k Hk) as [e [_ He]]. exists e. exact He. }
    assert (Hbound : forall n : nat,
              (forall k, (k < length (r_rois result))%nat -> (k < n)%nat) ->
              (length (r_rois result) <= n)%nat).
    { intros n H. destruct (length (r_rois result)) as [|p]; [lia|].
      specialize (H p). lia. }
    split; [|split; [|split]].
    - apply Hbound. intros k Hk. destruct (Hat k Hk) as [e He].
      apply instance_at_Return in He. destruct He as [H1 _].
      rewrite getitem_enumerate in H1.
      apply nth_error_Some. destruct (nth_error _ k); discriminate.
    - apply Hbound. intros k Hk. destruct (Hat k Hk) as [e He].
      apply instance_at_Return in He. destruct He as [_ [_ [H3 _]]].
      rewrite getitem_enumerate in H3.
      apply nth_error_Some. destruct (nth_error _ k); discriminate.
    - apply Hbound. intros k Hk. destruct (Hat k Hk) as [e He].
      apply instance_at_Return in He. destruct He as [_ [_ [_ H4]]].
      apply mask_raster_shape in H4. apply H4.
    - intros k cid Hk Hcid. destruct (Hat k Hk) as [e He].
      apply instance_at_Return in He. destruct He as [H1 [H2 _]].
      rewrite getitem_enumerate, Hcid in H1. injection H1 as H1.
      rewrite <- H1 in H2.
      destruct (Z.le_gt_cases (Z.of_nat (length (_class_names self))) cid)
        as [Hbig|Hbig].
      { rewrite getitem_out_of_range in H2 by (left; exact Hbig).
        discriminate. }
      destruct (Z.lt_ge_cases cid (- Z.of_nat (length (_class_names self))))
        as [Hsmall|Hsmall].
      { rewrite getitem_out_of_range in H2 by (right; exact Hsmall).
        discriminate. }
      lia. }
  split.
  - split; [intros [r Hr]; exact (Hfrom r Hr)|exact Hto].
  - split.
    + intros Hraise Hb. destruct (Hto Hb) as [r Hr]. congruence.
    + intros Hnot.
      destruct (_build_result_msg self msg result) as [r|x] eqn:E.
      * exfalso. exact (Hnot (Hfrom r eq_refl)).
      * f_equal. exact (build_Raise _ _ _ _ E).
Qed.

(** X2.  Every record the builder returns is consistent in itself,
    whatever the Detection Set: its class ids and scores are the first N
    class ids and scores of the Detection Set, unchanged and in order
    (nothing is filtered or sorted), each of the other collections has N
    entries, each name is the table entry at the class id of the same
    position, and each raster has height x width entries that are 0 or
    the (64-bit) class id of the same position. *)
Theorem built_record_consistent (self : Node) (msg : Image)
        (result : Detections) (r : Result) :
  _build_result_msg self msg result = Py.Return r ->
  class_ids r = firstn (length (r_rois result)) (r_class_ids result) /\
  scores r = firstn (length (r_rois result)) (r_scores result) /\
  length (boxes r) = length (r_rois result) /\
  length (class_names r) = length (r_rois result) /\
  length (masks r) = length (r_rois result) /\
  Forall2 (fun class_id name =>
             Py.getitem (_class_names self) class_id = Py.Return name)
          (class_ids r) (class_names r) /\
  Forall2 (fun class_id mask =>
             length (data mask)
             = (Np.shape0 (r_masks result) * Np.shape1 (r_masks result))%nat /\
             Forall (fun v => v = 0 \/ v = Np.int64 class_id) (data mask))
          (class_ids r) (masks r).
Proof.
  intros Hr.
  destruct (build_Return _ _ _ _ Hr)
    as [es [Hes [Hlen [_ [Hb [Hc [Hn [Hs Hm]]]]]]]].
  destruct (instances_copied _ _ _ _ _ Hes) as [Hids Hscores].
  pose proof (instances_each _ _ _ _ _ Hes) as Heach.
  rewrite Hb, Hc, Hn, Hs, Hm, !length_map.
  split; [exact Hids|]. split; [exact Hscores|].
  split; [reflexivity|]. split; [exact Hlen|]. split; [exact Hlen|].
  split.
  - apply Forall2_map_same. eapply Forall_impl; [|exact Heach].
    intros e [k Hk]. apply instance_at_Return in Hk. apply Hk.
  - apply Forall2_map_same. eapply Forall_impl; [|exact Heach].
    intros e [k Hk]. apply instance_at_Return in Hk.
    destruct Hk as [_ [_ [_ Hk]]]. apply mask_raster_shape in Hk. cbn.
    destruct Hk as [_ [H1 H2]]. split; assumption.
Qed.

(** ** The publishers and the configuration under every interleaving *)


Lemma instance_at_class_names (self self' : Node) (result : Detections)
      (i : nat) :
  _class_names self = _class_names self' ->
  instance_at self result i = instance_at self' result i.
Proof.
  intros H. unfold instance_at. rewrite H. reflexivity.
Qed.

Lemma build_class_names (self self' : Node) (msg : Image)
      (result : Detections) :
  _class_names self = _class_names self' ->
  _build_result_msg self msg result = _build_result_msg self' msg result.
Proof.
  intros H. unfold _build_result_msg. rewrite !loop_instances.
  assert (E : forall rois i,
             instances self result i rois = instances self' result i rois).
  { induction rois as [|roi rest IH]; intros i; [reflexivity|].
    cbn [instances]. rewrite (instance_at_class_names self self' result i H).
    destruct (instance_at self' result i); cbn; [|reflexivity].
    rewrite IH. reflexivity. }
  rewrite E. reflexivity.
Qed.

Lemma processed_node_config (self : Node) (msg : Image) (r : Result) :
  _visualization (processed_node self msg r) = _visualization self /\
  _class_names (processed_node self msg r) = _class_names self /\
  length (_vis_pub (processed_node self msg r))
  = (if _visualization self then S (length (_vis_pub self))
     else length (_vis_pub self)).
Proof.
  unfold processed_node. destruct (_visualization self) eqn:E; cbn.
  - rewrite E, length_app. cbn. repeat split; lia.
  - rewrite E. repeat split; reflexivity.
Qed.

Ltac exit_kept He :=
  let e := fresh "e" in
  let Hl := fresh "Hl" in
  intros e Hl;
  let m := fresh "m" in
  let rest := fresh "rest" in
  let H1 := fresh "H" in
  let H2 := fresh "H" in
  destruct (He e Hl) as [m [rest [H1 H2]]];
  exists m, rest; split; [exact H1|];
  rewrite <- H2; apply build_class_names; reflexivity.

Lemma accounting_boot (visualization : bool) (class_names : list string) :
  accounting visualization class_names (boot visualization class_names).
Proof.
  constructor; cbn; try reflexivity.
  - destruct visualization; reflexivity.
  - constructor.
  - intros e. discriminate.
Qed.

Lemma accounting_deliver (visualization : bool) (class_names : list string)
      (w : World) (msg : Image) :
  accounting visualization class_names w ->
  accounting visualization class_names (deliver msg w).
Proof.
  intros Hacc. unfold deliver. destruct (callback w); try exact Hacc.
  destruct Hacc as [Hv Hn Hi Hp He]. unfold acquire_nowait.
  destruct (_msg_lock (node w)); constructor; cbn; try assumption;
    exit_kept He.
Qed.

Lemma accounting_subscriber_step (visualization : bool)
      (class_names : list string) (w : World) :
  accounting visualization class_names w ->
  accounting visualization class_names (subscriber_step w).
Proof.
  intros Hacc. unfold subscriber_step.
  destruct (callback w) as [|msg| |x]; try exact Hacc.
  - destruct Hacc as [Hv Hn Hi Hp He].
    constructor; cbn; try assumption; exit_kept He.
  - destruct Hacc as [Hv Hn Hi Hp He]. unfold release.
    destruct (_msg_lock (node w)); constructor; cbn; try assumption;
      exit_kept He.
Qed.

Lemma accounting_main_step (visualization : bool)
      (class_names : list string) (w : World) :
  invariant w ->
  accounting visualization class_names w ->
  accounting visualization class_names (main_step w).
Proof.
  intros Hinv Hacc. unfold main_step.
  destruct (loop w) as [| |v|v|[msg|]|x] eqn:Eloop; try exact Hacc.
  - destruct Hacc as [Hv Hn Hi Hp He]. unfold acquire_nowait.
    destruct (_msg_lock (node w)); constructor; cbn; try assumption;
      intros e; discriminate.
  - destruct Hacc as [Hv Hn Hi Hp He].
    constructor; cbn; try assumption. intros e. discriminate.
  - destruct Hacc as [Hv Hn Hi Hp He].
    constructor; cbn; try assumption. intros e. discriminate.
  - inv_open Hinv Eloop. destruct Hacc as [Hv Hn Hi Hp He].
    unfold release. rewrite Hlock.
    constructor; cbn; try assumption. intros e. discriminate.
  - destruct Hacc as [Hv Hn Hi Hp He]. rewrite process_outcome.
    destruct (_build_result_msg (node w) msg _) as [r|x] eqn:E.
    + destruct (processed_node_config (node w) msg r) as [C1 [C2 C3]].
      destruct (processed_node_results (node w) msg r) as [R1 _].
      constructor; cbn [node loop processed].
      * congruence.
      * congruence.
      * rewrite C3, R1, length_app, Hv, Hi. cbn.
        destruct visualization; lia.
      * rewrite R1, map_app, rev_app_distr. cbn.
        destruct (build_Return _ _ _ _ E) as [es [_ [_ [Hh _]]]].
        rewrite Hh. apply subseq_keep. exact Hp.
      * intros e. discriminate.
    + constructor; cbn [node loop processed]; try assumption.
      * cbn. apply subseq_skip. exact Hp.
      * intros e Hl. injection Hl as <-. exists msg, (processed w).
        split; [reflexivity|exact E].
  - destruct Hacc as [Hv Hn Hi Hp He].
    constructor; cbn; try assumption. intros e. discriminate.
Qed.

Lemma accounting_exec (visualization : bool) (class_names : list string)
      (schedule : list move) :
  forall w,
    invariant w -> accounting visualization class_names w ->
    accounting visualization class_names (exec schedule w).
Proof.
  unfold exec. induction schedule as [|m rest IH]; intros w Hinv Hacc;
    [exact Hacc|].
  cbn [fold_left]. apply IH.
  - destruct m; cbn [step].
    + apply invariant_deliver. exact Hinv.
    + apply invariant_subscriber_step. exact Hinv.
    + apply invariant_main_step. exact Hinv.
  - destruct m; cbn [step].
    + apply accounting_deliver. exact Hacc.
    + apply accounting_subscriber_step. exact Hacc.
    + apply accounting_main_step; assumption.
Qed.

Lemma claimed_in_deposit_order (h : list mailbox_event) :
  last_write_wins h ->
  subseq (claimed_frames h) (deposited h) /\
  forall msg, newest h = Some msg ->
    exists rest, deposited h = msg :: rest /\ subseq (claimed_frames h) rest.
Proof.
  induction h as [|e h IH]; cbn.
  - intros _. split; [constructor|discriminate].
  - destruct e as [msg|msg|[msg|]|]; cbn.
    + intros Hw. destruct (IH Hw) as [H1 _].
      split; [apply subseq_skip; exact H1|].
      intros m Hm. injection Hm as <-. exists (deposited h).
      split; [reflexivity|exact H1].
    + exact IH.
    + intros [Hv Hw]. destruct (IH Hw) as [_ H2].
      destruct (H2 msg (eq_sym Hv)) as [rest [Hd Hs]].
      split; [|discriminate]. rewrite Hd. apply subseq_keep. exact Hs.
    + intros [_ Hw]. destruct (IH Hw) as [H1 _].
      split; [exact H1|discriminate].
    + exact IH.
Qed.

Lemma stored_in_delivery_order (schedule : list move) :
  forall (w : World) (d : list Image),
    subseq (in_flight (callback w) ++ deposited (history w)) (rev d) ->
    subseq (in_flight (callback (exec schedule w))
            ++ deposited (history (exec schedule w)))
           (rev (d ++ delivered schedule)).
Proof.
  unfold exec. induction schedule as [|m rest IH]; intros w d H.
  - cbn. rewrite app_nil_r. exact H.
  - cbn [fold_left]. destruct m as [msg| |]; cbn [step delivered].
    + replace (d ++ msg :: delivered rest)
        with ((d ++ [msg]) ++ delivered rest)
        by (rewrite <- app_assoc; reflexivity).
      apply IH. rewrite rev_app_distr. cbn [rev app].
      unfold deliver. destruct (callback w) eqn:Ecb;
        try (rewrite Ecb; apply subseq_skip; exact H).
      unfold acquire_nowait. cbn [in_flight app] in H.
      destruct (_msg_lock (node w)); cbn.
      * apply subseq_skip. exact H.
      * apply subseq_keep. exact H.
    + apply IH. unfold subscriber_step.
      destruct (callback w) as [|msg| |x] eqn:Ecb;
        try (rewrite Ecb; exact H).
      * cbn. exact H.
      * unfold release. destruct (_msg_lock (node w)); cbn; exact H.
    + apply IH. unfold main_step.
      destruct (loop w) as [| |v|v|[msg|]|x]; try (cbn; exact H).
      * unfold acquire_nowait. destruct (_msg_lock (node w)); cbn; exact H.
      * unfold release. destruct (_msg_lock (node w)); cbn; exact H.
      * destruct (process msg (node w)) as [self [u|e]];
          cbn [callback history]; exact H.
Qed.

Lemma processed_in_delivery_order (visualization : bool)
      (class_names : list string) (schedule : list move) :
  subseq (processed (exec schedule (boot visualization class_names)))
         (rev (delivered schedule)).
Proof.
  pose proof (invariant_exec schedule _
                (invariant_boot visualization class_names)) as Hinv.
  pose proof (stored_in_delivery_order schedule
                (boot visualization class_names) [] (subseq_nil))
    as Hstored.
  cbn [app] in Hstored.
  destruct Hinv as [_ _ _ _ Hwins Hclaimed _ _].
  destruct (claimed_in_deposit_order _ Hwins) as [Hsub _].
  eapply subseq_trans; [exact Hstored|].
  eapply subseq_trans.
  { rewrite <- (app_nil_l (deposited _)) at 1.
    apply subseq_app; [apply subseq_nil_l|apply subseq_refl]. }
  eapply subseq_trans; [exact Hsub|].
  rewrite Hclaimed.
  rewrite <- (app_nil_l (processed _)) at 1.
  apply subseq_app; [apply subseq_nil_l|apply subseq_refl].
Qed.

Lemma exit_kept_by_step (w : World) (m : move) (e : Py.exn) :
  loop w = LExited e ->
  loop (step w m) = LExited e /\
  processed (step w m) = processed w /\
  _result_pub (node (step w m)) = _result_pub (node w) /\
  _vis_pub (node (step w m)) = _vis_pub (node w).
Proof.
  intros Hl. destruct m as [msg| |]; cbn [step].
  - unfold deliver. destruct (callback w); auto.
    unfold acquire_nowait. destruct (_msg_lock (node w)); cbn; auto.
  - unfold subscriber_step. destruct (callback w); cbn; auto.
    unfold release. destruct (_msg_lock (node w)); cbn; auto.
  - unfold main_step. rewrite Hl. rewrite Hl. auto.
Qed.

(** X3.  Under every interleaving the lock is taken exactly while one
    thread is between its [acquire] and its [release], never by both,
    and every [release] finds the lock taken: no callback ends with an
    exception and the loop is never left by [RuntimeError]. *)
Theorem mutual_exclusion (visualization : bool) (class_names : list string)
        (schedule : list move) :
  let w := exec schedule (boot visualization class_names) in
  _msg_lock (node w) = callback_in_cs (callback w) || loop_in_cs (loop w) /\
  callback_in_cs (callback w) && loop_in_cs (loop w) = false /\
  (forall e, callback w <> CbRaised e) /\
  loop w <> LExited Py.RuntimeError.
Proof.
  intros w.
  assert (Hinv : invariant w) by (apply invariant_exec, invariant_boot).
  destruct Hinv as [Hlock Hmutex _ _ _ _ Hcb Hloop].
  repeat split; assumption.
Qed.


(** X5.  Under every interleaving the headers of the records published,
    in the order of publication, are headers of delivered frames in the
    order of delivery, each delivery used at most once: results are
    never reordered, repeated or made up, only frames are skipped. *)
Theorem published_in_delivery_order (visualization : bool)
        (class_names : list string) (schedule : list move) :
  let w := exec schedule (boot visualization class_names) in
  subseq (map result_header (_result_pub (node w)))
         (map header (delivered schedule)) /\
  (length (_result_pub (node w)) <= length (delivered schedule))%nat.
Proof.
  intros w.
  pose proof (accounting_exec visualization class_names schedule _
                (invariant_boot visualization class_names)
                (accounting_boot visualization class_names)) as Hacc.
  destruct Hacc as [_ _ _ Hp _]. fold w in Hp.
  pose proof (subseq_map header _ _
                (processed_in_delivery_order visualization class_names
                                             schedule)) as Hd.
  fold w in Hd.
  pose proof (subseq_rev _ _ (subseq_trans _ _ Hd _ Hp)) as H.
  rewrite rev_involutive, map_rev, rev_involutive in H.
  split; [exact H|].
  apply subseq_length in H. rewrite !length_map in H. exact H.
Qed.

(** X6.  Once the loop has been left by an exception it stays left:
    whatever the callbacks do afterwards, no frame is processed and
    nothing is published any more. *)
Theorem exit_is_final (w : World) (e : Py.exn) (schedule : list move) :
  loop w = LExited e ->
  loop (exec schedule w) = LExited e /\
  processed (exec schedule w) = processed w /\
  _result_pub (node (exec schedule w)) = _result_pub (node w) /\
  _vis_pub (node (exec schedule w)) = _vis_pub (node w).
Proof.
  unfold exec. revert w. induction schedule as [|m rest IH]; intros w Hl.
  - cbn. auto.
  - cbn [fold_left].
    destruct (exit_kept_by_step w m e Hl) as [H1 [H2 [H3 H4]]].
    destruct (IH _ H1) as [I1 [I2 [I3 I4]]].
    repeat split; congruence.
Qed.


(** X8.  When both threads are between operations, a delivered frame is
    stored over whatever frame was waiting, and the next iteration of
    the loop claims and processes exactly that frame and leaves the slot
    empty. *)
Theorem idle_frame_is_processed_next (visualization : bool)
        (class_names : list string) (schedule : list move) (msg : Image) :
  callback (exec schedule (boot visualization class_names)) = CbIdle ->
  loop (exec schedule (boot visualization class_names)) = LTop ->
  let w := exec schedule (boot visualization class_names) in
  let w' := exec ([Deliver msg; SubscriberStep; SubscriberStep]
                  ++ [MainStep; MainStep; MainStep; MainStep; MainStep]) w in
  node w' = fst (process msg (set_last_msg (node w) None)) /\
  processed w' = msg :: processed w /\
  history w' = Claimed (Some msg) :: Deposited msg :: history w /\
  _last_msg (node w') = None.
Proof.
  intros Hcb Hloop w.
  assert (Hinv : invariant w) by (apply invariant_exec, invariant_boot).
  fold w in Hcb, Hloop.
  destruct Hinv as [Hlock _ _ _ _ _ _ _].
  rewrite Hcb, Hloop in Hlock. cbn in Hlock.
  clearbody w.
  destruct w as [[vis names last lock results images] cb lp h p].
  cbn [callback loop node _msg_lock] in Hcb, Hloop, Hlock. subst cb lp lock.
  intros w'.
  assert (Hw' : w' = match process msg
                             {| _visualization := vis; _class_names := names;
                                _last_msg := None; _msg_lock := false;
                                _result_pub := results; _vis_pub := images |}
                     with
                     | (self, Py.Return _) =>
                         {| node := self; callback := CbIdle; loop := LTop;
                            history := Claimed (Some msg) :: Deposited msg :: h;
                            processed := msg :: p |}
                     | (self, Py.Raise e) =>
                         {| node := self; callback := CbIdle; loop := LExited e;
                            history := Claimed (Some msg) :: Deposited msg :: h;
                            processed := msg :: p |}
                     end).
  { subst w'. unfold exec. cbn [app fold_left step].
    cbv beta iota delta [deliver subscriber_step main_step acquire_nowait
                         release loop node callback history processed
                         _msg_lock _last_msg set_msg_lock set_last_msg
                         _visualization _class_names _result_pub _vis_pub].
    reflexivity. }
  rewrite Hw'. cbn [node set_last_msg _visualization _class_names _msg_lock
                    _result_pub _vis_pub].
  pose proof (process_keeps_mailbox
                {| _visualization := vis; _class_names := names;
                   _last_msg := None; _msg_lock := false;
                   _result_pub := results; _vis_pub := images |} msg)
    as [Hk _].
  destruct (process msg _) as [self [u|e]]; cbn [fst] in *;
    cbn [node processed history]; repeat split; exact Hk.
Qed.


(** X10.  In every state of the node, neither the callback nor the claim
    of the loop raises, and each leaves the lock and the publishers as
    it found them; the callback changes the slot only to its own frame,
    the claim only to empty. *)
Theorem mailbox_operations_never_raise (self : Node) (msg : Image) :
  snd (_image_callback msg self) = Py.Return tt /\
  (exists c, snd (claim self) = Py.Return c) /\
  _msg_lock (fst (_image_callback msg self)) = _msg_lock self /\
  _msg_lock (fst (claim self)) = _msg_lock self /\
  _result_pub (fst (_image_callback msg self)) = _result_pub self /\
  _result_pub (fst (claim self)) = _result_pub self /\
  (_last_msg (fst (_image_callback msg self)) = Some msg \/
   _last_msg (fst (_image_callback msg self)) = _last_msg self) /\
  (_last_msg (fst (claim self)) = None \/
   _last_msg (fst (claim self)) = _last_msg self).
Proof.
  destruct (_msg_lock self) eqn:El.
  - rewrite (callback_held self msg El), (claim_held self El). cbn.
    repeat split; auto. eexists. reflexivity.
  - rewrite (callback_free self msg El), (claim_free self El). cbn.
    repeat split; auto. eexists. reflexivity.
Qed.
End Node.

(** ** Concrete scenarios

    Frames are told apart by a sequence number that stands for the
    header, the pixels carry nothing, a score is kept as the text of its
    value, and the cv2 image of a frame is its sequence number.  Boxes
    are 32-bit.  The model answers by the frame:  frame 1 shows one
    person, frame 2 comes back with a class id outside the table, frame
    3 with class id -1, frame 4 with class id 0, and every other frame
    shows nothing. *)

Module Scenario.

Definition frame (seq : nat) : Image nat unit :=
  {| header := seq; pixels := tt |}.

Definition table : list string := ["BG"; "person"; "car"]%string.

(** A mask of 60 rows and 80 columns, true within rows 10..49 and
    columns 20..59. *)
Definition box_mask : Np.bool3 :=
  {| Np.shape0 := 60; Np.shape1 := 80; Np.shape2 := 1;
     Np.at3 := fun r c _ =>
       ((10 <=? r) && (r <? 50) && (20 <=? c) && (c <? 60))%nat |}.

(** A mask of one pixel, set or not. *)
Definition pixel (b : bool) : Np.bool3 :=
  {| Np.shape0 := 1; Np.shape1 := 1; Np.shape2 := 1;
     Np.at3 := fun _ _ _ => b |}.

Definition one_instance (class_id : Z) (m : Np.bool3) : Detections string :=
  {| r_rois := [(10, 20, 50, 60)];
     r_class_ids := [class_id];
     r_scores := ["0.95"%string];
     r_masks := m |}.

Definition nothing : Detections string :=
  {| r_rois := []; r_class_ids := []; r_scores := [];
     r_masks := {| Np.shape0 := 60; Np.shape1 := 80; Np.shape2 := 0;
                   Np.at3 := fun _ _ _ => false |} |}.

Definition detect (seq : nat) : Detections string :=
  match seq with
  | 1%nat => one_instance 1 box_mask
  | 2%nat => one_instance 3 (pixel true)
  | 3%nat => one_instance (-1) (pixel true)
  | 4%nat => one_instance 0 (pixel true)
  | _ => nothing
  end.

Definition started : Node nat unit string := __init__ nat unit string false table.

(** The node with [msg] in the slot and the lock in state [locked]. *)
Definition holding (msg : Image nat unit) (locked : bool) : Node nat unit string :=
  set_msg_lock _ _ _ (set_last_msg _ _ _ started (Some msg)) locked.

Definition build (msg : Image nat unit) : Py.outcome (Result nat string) :=
  _build_result_msg nat unit string 32 started msg (detect (header _ _ msg)).

Definition iteration : action nat unit string unit :=
  run_iteration nat unit string nat 32 (header nat unit) detect
                (fun _ _ image => image) (fun image => image) frame.

Definition loop_of_run (is_shutdown : list bool) : action nat unit string unit :=
  run nat unit string nat 32 (header nat unit) detect
      (fun _ _ image => image) (fun image => image) frame is_shutdown.

(** The state the two threads reach from the start under a schedule. *)
Abbreviation play schedule :=
  (exec nat unit string nat 32 (header nat unit) detect
        (fun _ _ image => image) (fun image => image) frame
        schedule (boot nat unit string false table)).

(** A callback and an iteration of the loop, each run to its end. *)
Definition deposit (msg : Image nat unit) : list (move nat unit) :=
  [Deliver _ _ msg; SubscriberStep _ _; SubscriberStep _ _].

Definition tick : list (move nat unit) :=
  [MainStep _ _; MainStep _ _; MainStep _ _; MainStep _ _; MainStep _ _].

(** The record built for frame 1. *)
Definition person_record : Result nat string :=
  Eval vm_compute in
    match build (frame 1) with
    | Py.Return r => r
    | Py.Raise _ =>
        {| result_header := 0%nat; boxes := []; class_ids := [];
           class_names := []; scores := []; masks := [] |}
    end.

End Scenario.

Import Scenario.

(** The scenario of the frame with one person: its region, class name,
    score and raster. *)
Lemma region_of_box_witness :
  build (frame 1) = Py.Return person_record /\
  nth_error (r_rois _ (detect 1)) 0 = Some (10, 20, 50, 60) /\
  box_in_bounds 32 (10, 20, 50, 60) /\
  nth_error (boxes _ _ person_record) 0
  = Some {| x_offset := 20; y_offset := 10;
            height := 40; width := 40; do_rectify := false |}.
Proof.
  assert (H1 : build (frame 1) = Py.Return person_record)
    by (vm_compute; reflexivity).
  assert (H2 : nth_error (r_rois _ (detect 1)) 0 = Some (10, 20, 50, 60))
    by reflexivity.
  assert (H3 : box_in_bounds 32 (10, 20, 50, 60))
    by (unfold box_in_bounds, Np.in_range; cbn; lia).
  split; [exact H1|]. split; [exact H2|]. split; [exact H3|].
  exact (region_of_box nat unit string 32 started (frame 1) (detect 1)
                         person_record 0 10 20 50 60 H1 H2 H3).
Defined.

(** The record of frame 1 in full: class id 1 named person, the score
    kept, and a raster that is 1 within the box and 0 outside. *)
Example person_scenario :
  class_ids _ _ person_record = [1] /\
  class_names _ _ person_record = ["person"%string] /\
  scores _ _ person_record = ["0.95"%string] /\
  result_header _ _ person_record = 1%nat /\
  (exists raster,
      masks _ _ person_record = [{| data := raster |}] /\
      length raster = 4800%nat /\
      nth_error raster (10 * 80 + 20) = Some 1 /\
      nth_error raster (49 * 80 + 59) = Some 1 /\
      nth_error raster (9 * 80 + 20) = Some 0 /\
      nth_error raster (10 * 80 + 60) = Some 0 /\
      nth_error raster (50 * 80 + 20) = Some 0).
Proof.
  repeat (split; [reflexivity|]).
  eexists. split; [reflexivity|].
  repeat split; vm_compute; reflexivity.
Qed.

(** The mask of the person of frame 1, with class id 1: a raster of
    4800 entries that reads back as the mask. *)
Lemma mask_round_trip_witness :
  (0 < Np.shape2 box_mask)%nat /\ Np.in_range 64 1 /\
  exists raster sel,
    mask_raster box_mask 0 1 = Py.Return raster /\
    Np.slice_last box_mask 0 = Py.Return sel /\
    length raster = (60 * 80)%nat /\
    (forall r c, (r < 60)%nat -> (c < 80)%nat ->
       nth_error raster (r * 80 + c) = Some (if Np.bat sel r c then 1 else 0)) /\
    (1 <> 0 -> raster_to_mask 60 80 raster = Np.btolist sel).
Proof.
  assert (H1 : (0 < Np.shape2 box_mask)%nat) by (cbn; lia).
  assert (H2 : Np.in_range 64 1) by (unfold Np.in_range; cbn; lia).
  split; [exact H1|]. split; [exact H2|].
  exact (mask_round_trip box_mask 0 1 H1 H2).
Defined.

(** The Detection Set of frame 1 is well formed, and its record has one
    entry in each collection. *)
Lemma result_aligned_witness :
  well_formed nat unit string started (detect 1) /\
  exists r,
    build (frame 1) = Py.Return r /\
    length (boxes _ _ r) = 1%nat /\
    length (class_ids _ _ r) = 1%nat /\
    length (class_names _ _ r) = 1%nat /\
    length (scores _ _ r) = 1%nat /\
    length (masks _ _ r) = 1%nat /\
    class_names _ _ r = ["person"%string].
Proof.
  assert (Hwf : well_formed nat unit string started (detect 1)).
  { unfold well_formed. cbn. repeat split; try reflexivity.
    constructor; [lia|constructor]. }
  split; [exact Hwf|].
  destruct (result_aligned nat unit string 32 started (frame 1) (detect 1) Hwf)
    as [r [Hr [L1 [L2 [L3 [L4 [L5 _]]]]]]].
  exists r. repeat (split; [assumption|]).
  unfold build in *. cbn [header] in *.
  assert (Hp : _build_result_msg nat unit string 32 started (frame 1) (detect 1)
               = Py.Return person_record) by (vm_compute; reflexivity).
  rewrite Hp in Hr. injection Hr as <-. reflexivity.
Defined.

(** With the lock taken, a callback for frame 10 and an iteration leave
    the node holding frame 9 as it was. *)
Lemma contention_skips_witness :
  _msg_lock _ _ _ (holding (frame 9) true) = true /\
  _image_callback _ _ _ (frame 10) (holding (frame 9) true)
  = (holding (frame 9) true, Py.Return tt) /\
  claim _ _ _ (holding (frame 9) true)
  = (holding (frame 9) true, Py.Return (Skipped _ _)) /\
  iteration (holding (frame 9) true) = (holding (frame 9) true, Py.Return tt).
Proof.
  split; [reflexivity|].
  exact (contention_skips nat unit string nat 32 (header nat unit) detect
           (fun _ _ image => image) (fun image => image) frame
           (holding (frame 9) true) (frame 10) eq_refl).
Defined.

(** Class id -1 with a table of three names resolves to the last name. *)
Lemma class_name_lookup_witness :
  Py.getitem table (-1) = Py.Return "car"%string /\
  build (frame 3)
  = Py.Return {| result_header := 3%nat;
                 boxes := [{| x_offset := 20; y_offset := 10; height := 40;
                              width := 40; do_rectify := false |}];
                 class_ids := [-1];
                 class_names := ["car"%string];
                 scores := ["0.95"%string];
                 masks := [{| data := [-1] |}] |}.
Proof.
  destruct (class_name_lookup nat unit string 32 started (detect 3) 0
              (10, 20, 50, 60)
              {| result_header := 3%nat; boxes := []; class_ids := [];
                 class_names := []; scores := []; masks := [] |}
              (-1) "0.95"%string [-1] eq_refl eq_refl eq_refl)
    as [_ [_ H]].
  destruct H as [name [Hnth [Hget Hbody]]]; [cbn; lia|].
  cbn in Hnth. injection Hnth as <-.
  split; [exact Hget|].
  change (build (frame 3))
    with (Py.bind
            (build_body nat unit string 32 started (detect 3) 0 (10, 20, 50, 60)
               {| result_header := 3%nat; boxes := []; class_ids := [];
                  class_names := []; scores := []; masks := [] |})
            (fun m => Py.Return m)).
  rewrite Hbody. reflexivity.
Defined.

(** Frame 9 shows nothing: the record with its header and no entry is
    published. *)
Lemma empty_detection_published_witness :
  _msg_lock _ _ _ (holding (frame 9) false) = false /\
  _last_msg _ _ _ (holding (frame 9) false) = Some (frame 9) /\
  r_rois _ (detect (header _ _ (frame 9))) = [] /\
  _build_result_msg nat unit string 32 (holding (frame 9) false) (frame 9)
                    (detect (header _ _ (frame 9)))
  = Py.Return {| result_header := 9%nat;
                 boxes := []; class_ids := []; class_names := [];
                 scores := []; masks := [] |} /\
  exists self',
    iteration (holding (frame 9) false) = (self', Py.Return tt) /\
    _result_pub _ _ _ self'
    = _result_pub _ _ _ (holding (frame 9) false)
      ++ [{| result_header := 9%nat;
             boxes := []; class_ids := []; class_names := [];
             scores := []; masks := [] |}] /\
    _last_msg _ _ _ self' = None.
Proof.
  split; [reflexivity|]. split; [reflexivity|]. split; [reflexivity|].
  exact (empty_detection_published nat unit string nat 32 (header nat unit)
           detect (fun _ _ image => image) (fun image => image) frame
           (holding (frame 9) false) (frame 9) eq_refl eq_refl eq_refl).
Defined.

(** Frame 2 comes back with class id 3 for a table of three names. *)
Lemma bad_class_id_ends_run_witness :
  _msg_lock _ _ _ (holding (frame 2) false) = false /\
  _last_msg _ _ _ (holding (frame 2) false) = Some (frame 2) /\
  (0 < length (r_rois _ (detect (header _ _ (frame 2)))))%nat /\
  nth_error (r_class_ids _ (detect (header _ _ (frame 2)))) 0 = Some 3 /\
  Z.of_nat (length (_class_names _ _ _ (holding (frame 2) false))) <= 3 /\
  _build_result_msg nat unit string 32 (holding (frame 2) false) (frame 2)
                    (detect (header _ _ (frame 2)))
  = Py.Raise Py.IndexError /\
  loop_of_run [false; false; false] (holding (frame 2) false)
  = (set_last_msg _ _ _ (holding (frame 2) false) None,
     Py.Raise Py.IndexError).
Proof.
  assert (H3 : (0 < length (r_rois _ (detect (header _ _ (frame 2)))))%nat)
    by (cbn; lia).
  assert (H5 : Z.of_nat (length (_class_names _ _ _ (holding (frame 2) false)))
               <= 3) by (cbn; lia).
  split; [reflexivity|]. split; [reflexivity|]. split; [exact H3|].
  split; [reflexivity|]. split; [exact H5|].
  exact (bad_class_id_ends_run nat unit string nat 32 (header nat unit)
           detect (fun _ _ image => image) (fun image => image) frame
           (holding (frame 2) false) (frame 2) [false; false] 0 3
           eq_refl eq_refl H3 eq_refl H5).
Defined.

(** C2, as stated, fails for frame 2: the iteration that claims it
    raises, and [run] ends there although two more iterations were due;
    with the threads stepped, the loop has exited, and frame 1, stored
    afterwards, stays in the slot and nothing is ever published. *)
Lemma failed_iteration_is_fatal :
  iteration (holding (frame 2) false) = (started, Py.Raise Py.IndexError) /\
  loop_of_run [false; false; false] (holding (frame 2) false)
  = (started, Py.Raise Py.IndexError) /\
  loop _ _ _ (play (deposit (frame 2) ++ tick ++ deposit (frame 1) ++ tick ++ tick))
  = LExited _ _ Py.IndexError /\
  _last_msg _ _ _
    (node _ _ _ (play (deposit (frame 2) ++ tick ++ deposit (frame 1) ++ tick ++ tick)))
  = Some (frame 1) /\
  _result_pub _ _ _
    (node _ _ _ (play (deposit (frame 2) ++ tick ++ deposit (frame 1) ++ tick ++ tick)))
  = [].
Proof.
  repeat split; vm_compute; reflexivity.
Qed.

(** C5, as stated, fails for an instance of class id 0: the raster of a
    set pixel is the raster of a clear one, and reading it back gives a
    clear pixel. *)
Lemma class_zero_mask_is_lost :
  mask_raster (pixel true) 0 0 = Py.Return [0] /\
  mask_raster (pixel false) 0 0 = Py.Return [0] /\
  (exists sel, Np.slice_last (pixel true) 0 = Py.Return sel /\
               Np.btolist sel = [[true]]) /\
  raster_to_mask 1 1 [0] = [[false]] /\
  raster_to_mask 1 1 [0] <> [[true]] /\
  build (frame 4)
  = Py.Return {| result_header := 4%nat;
                 boxes := [{| x_offset := 20; y_offset := 10; height := 40;
                              width := 40; do_rectify := false |}];
                 class_ids := [0];
                 class_names := ["BG"%string];
                 scores := ["0.95"%string];
                 masks := [{| data := [0] |}] |}.
Proof.
  split; [reflexivity|]. split; [reflexivity|].
  split; [eexists; split; reflexivity|].
  split; [reflexivity|]. split; [discriminate|].
  vm_compute. reflexivity.
Qed.

(** Frames 10 and 11 are stored, the loop takes the lock, frame 12
    arrives and is dropped, and the loop ends its iteration: the claim
    found frame 11. *)
Lemma mailbox_last_write_wins_witness :
  history _ _ _
    (play (deposit (frame 10) ++ deposit (frame 11)
           ++ [MainStep _ _; Deliver _ _ (frame 12);
               MainStep _ _; MainStep _ _; MainStep _ _; MainStep _ _]))
  = [] ++ Claimed _ _ (Some (frame 11))
       :: [Dropped _ _ (frame 12)]
       ++ Deposited _ _ (frame 11) :: [Deposited _ _ (frame 10)] /\
  quiet _ _ [Dropped _ _ (frame 12)] /\
  Some (frame 11) = Some (frame 11) /\
  _last_msg _ _ _
    (node _ _ _
       (play (deposit (frame 10) ++ deposit (frame 11)
              ++ [MainStep _ _; Deliver _ _ (frame 12);
                  MainStep _ _; MainStep _ _; MainStep _ _; MainStep _ _])))
  = None.
Proof.
  assert (Hh : history _ _ _
    (play (deposit (frame 10) ++ deposit (frame 11)
           ++ [MainStep _ _; Deliver _ _ (frame 12);
               MainStep _ _; MainStep _ _; MainStep _ _; MainStep _ _]))
  = [] ++ Claimed _ _ (Some (frame 11))
       :: [Dropped _ _ (frame 12)]
       ++ Deposited _ _ (frame 11) :: [Deposited _ _ (frame 10)])
    by (vm_compute; reflexivity).
  assert (Hq : quiet _ _ [Dropped _ _ (frame 12)]).
  { split; [reflexivity|]. intros v [H|[]]. discriminate. }
  pose proof (mailbox_last_write_wins nat unit string nat 32 (header nat unit)
                detect (fun _ _ image => image) (fun image => image) frame
                false table
                (deposit (frame 10) ++ deposit (frame 11)
                 ++ [MainStep _ _; Deliver _ _ (frame 12);
                     MainStep _ _; MainStep _ _; MainStep _ _; MainStep _ _]))
    as H.
  cbv zeta in H. destruct H as [Hslot [Hlast _]].
  split; [exact Hh|]. split; [exact Hq|].
  split; [exact (Hlast [] [Dropped _ _ (frame 12)] [Deposited _ _ (frame 10)]
                      (Some (frame 11)) (frame 11) Hh Hq)|].
  rewrite Hslot, Hh. reflexivity.
Defined.

(** Frames 10 and 11 are stored and claimed in turn: each is claimed and
    processed once. *)
Lemma claimed_once_witness :
  NoDup (deposited _ _
           (history _ _ _
              (play (deposit (frame 10) ++ tick ++ deposit (frame 11) ++ tick)))) /\
  NoDup (claimed_frames _ _
           (history _ _ _
              (play (deposit (frame 10) ++ tick ++ deposit (frame 11) ++ tick)))) /\
  NoDup (processed _ _ _
           (play (deposit (frame 10) ++ tick ++ deposit (frame 11) ++ tick))) /\
  processed _ _ _
    (play (deposit (frame 10) ++ tick ++ deposit (frame 11) ++ tick))
  = [frame 11; frame 10].
Proof.
  assert (Hd : NoDup (deposited _ _
           (history _ _ _
              (play (deposit (frame 10) ++ tick ++ deposit (frame 11) ++ tick))))).
  { vm_compute. constructor.
    - intros [H|[]]. discriminate.
    - constructor; [intros []|constructor]. }
  pose proof (claimed_once nat unit string nat 32 (header nat unit)
                detect (fun _ _ image => image) (fun image => image) frame
                false table
                (deposit (frame 10) ++ tick ++ deposit (frame 11) ++ tick))
    as H.
  cbv zeta in H. destruct H as [_ [_ [_ H]]].
  destruct (H Hd) as [H1 [_ [H2 _]]].
  split; [exact Hd|]. split; [exact H1|]. split; [exact H2|].
  vm_compute. reflexivity.
Defined.

(** ** Further scenarios *)

(** The state reached from [w] under a schedule. *)
Abbreviation resume schedule w :=
  (exec nat unit string nat 32 (header nat unit) detect
        (fun _ _ image => image) (fun image => image) frame
        schedule w).

(** The record of frame 1 keeps the class id and the score of the
    Detection Set. *)
Lemma built_record_consistent_witness :
  build (frame 1) = Py.Return person_record /\
  class_ids _ _ person_record
  = firstn (length (r_rois _ (detect 1))) (r_class_ids _ (detect 1)) /\
  scores _ _ person_record
  = firstn (length (r_rois _ (detect 1))) (r_scores _ (detect 1)).
Proof.
  assert (H1 : build (frame 1) = Py.Return person_record)
    by (vm_compute; reflexivity).
  destruct (built_record_consistent nat unit string 32 started (frame 1)
              (detect 1) person_record H1) as [A [B _]].
  split; [exact H1|]. split; [exact A|exact B].
Defined.


(** After the loop was left on frame 2, frame 1 is delivered and the
    main thread is stepped: nothing more is processed or published. *)
Lemma exit_is_final_witness :
  loop _ _ _ (play (deposit (frame 2) ++ tick)) = LExited _ _ Py.IndexError /\
  loop _ _ _ (resume (deposit (frame 1) ++ tick)
                     (play (deposit (frame 2) ++ tick)))
  = LExited _ _ Py.IndexError /\
  processed _ _ _ (resume (deposit (frame 1) ++ tick)
                          (play (deposit (frame 2) ++ tick)))
  = processed _ _ _ (play (deposit (frame 2) ++ tick)) /\
  _result_pub _ _ _
    (node _ _ _ (resume (deposit (frame 1) ++ tick)
                        (play (deposit (frame 2) ++ tick))))
  = _result_pub _ _ _ (node _ _ _ (play (deposit (frame 2) ++ tick))) /\
  _vis_pub _ _ _
    (node _ _ _ (resume (deposit (frame 1) ++ tick)
                        (play (deposit (frame 2) ++ tick))))
  = _vis_pub _ _ _ (node _ _ _ (play (deposit (frame 2) ++ tick))).
Proof.
  assert (Hl : loop _ _ _ (play (deposit (frame 2) ++ tick))
               = LExited _ _ Py.IndexError) by (vm_compute; reflexivity).
  split; [exact Hl|].
  exact (exit_is_final nat unit string nat 32 (header nat unit)
           detect (fun _ _ image => image) (fun image => image) frame
           (play (deposit (frame 2) ++ tick)) Py.IndexError
           (deposit (frame 1) ++ tick) Hl).
Defined.

(** Frame 10 waits in the slot with both threads idle; frame 11 arrives
    and is the one processed. *)
Lemma idle_frame_is_processed_next_witness :
  callback _ _ _ (play (deposit (frame 10))) = CbIdle _ _ /\
  loop _ _ _ (play (deposit (frame 10))) = LTop _ _ /\
  processed _ _ _
    (resume ([Deliver _ _ (frame 11); SubscriberStep _ _; SubscriberStep _ _]
             ++ [MainStep _ _; MainStep _ _; MainStep _ _; MainStep _ _;
                 MainStep _ _])
            (play (deposit (frame 10))))
  = frame 11 :: processed _ _ _ (play (deposit (frame 10))).
Proof.
  assert (H1 : callback _ _ _ (play (deposit (frame 10))) = CbIdle _ _)
    by (vm_compute; reflexivity).
  assert (H2 : loop _ _ _ (play (deposit (frame 10))) = LTop _ _)
    by (vm_compute; reflexivity).
  pose proof (idle_frame_is_processed_next nat unit string nat 32
                (header nat unit) detect (fun _ _ image => image)
                (fun image => image) frame false table
                (deposit (frame 10)) (frame 11) H1 H2) as H.
  cbv zeta in H. destruct H as [_ [Hp _]].
  split; [exact H1|]. split; [exact H2|exact Hp].
Defined.

